(** * is-library: the configuration module [app/config.py]

    A shallow embedding of the module and the properties of its two pieces of
    logic: the citation-markup rewriter registered for the [preview] field,
    and the environment-driven construction of the configuration classes. *)

From Stdlib Require Import String Ascii List Bool Arith ZArith Lia.
From stdpp Require Import base option gmap strings.

Local Open Scope string_scope.

#[local] Arguments String.append !_ _ / : simpl nomatch.

(** ** Text

    Python's [str] is embedded as [string], a text being the sequence of the
    bytes of its UTF-8 encoding: the tags and the line feed are ASCII, and an
    ASCII byte occurs in such a sequence only as the character it encodes, so
    matching the two patterns on bytes and on characters is the same.  The
    literals of the source that contain a double quote or a line feed are
    spelled with the character codes. *)

Definition dquote : ascii := "034"%char.
Definition newline : ascii := "010"%char.
Definition backslash : ascii := "092"%char.

Definition nl : string := String newline EmptyString.

(** [s.startswith(t)] and [s.endswith(t)]. *)
Fixpoint startswith (t s : string) : bool :=
  match t, s with
  | EmptyString, _ => true
  | String a t', String b s' => if Ascii.eqb a b then startswith t' s' else false
  | String _ _, EmptyString => false
  end.

Fixpoint drop (n : nat) (s : string) : string :=
  match n, s with
  | O, _ => s
  | S n', String _ s' => drop n' s'
  | S _, EmptyString => EmptyString
  end.

Fixpoint take (n : nat) (s : string) : string :=
  match n, s with
  | O, _ => EmptyString
  | S n', String c s' => String c (take n' s')
  | S _, EmptyString => EmptyString
  end.

Definition endswith (t s : string) : bool :=
  (String.length t <=? String.length s)%nat &&
  String.eqb (drop (String.length s - String.length t) s) t.

(** [s[i:j]] for [0 <= i <= j]. *)
Definition slice (i j : nat) (s : string) : string := take (j - i) (drop i s).

Fixpoint contains_char (c : ascii) (s : string) : bool :=
  match s with
  | EmptyString => false
  | String d s' => Ascii.eqb c d || contains_char c s'
  end.

(** ** The fragment of [re] used by the module

    Both patterns of the module are a literal with an anchor.  A pattern in
    this fragment is a sequence of atoms; [compile] reads the pattern
    string, and answers [None] on the special characters that it does not
    model (where [re.compile] would build another kind of matcher, or raise
    [re.error]). *)
Module Re.

Inductive atom : Type :=
| Bol             (* ^ : the start of the string (no MULTILINE flag) *)
| Eol             (* $ : the end of the string, or just before a final line feed *)
| Lit (c : ascii) (* an ordinary character *).

Definition special : string := ".^$*+?{}[]\|()".

Fixpoint compile (pattern : string) : option (list atom) :=
  match pattern with
  | EmptyString => Some []
  | String c rest =>
      match compile rest with
      | None => None
      | Some atoms =>
          if Ascii.eqb c "^" then Some (Bol :: atoms)
          else if Ascii.eqb c "$" then Some (Eol :: atoms)
          else if contains_char c special then None
          else Some (Lit c :: atoms)
      end
  end.

(** The replacement template: without a backslash it is inserted as it is;
    with one, [re] parses escapes and group references (not modelled). *)
Definition template (repl : string) : option string :=
  if contains_char backslash repl then None else Some repl.

(** [$] holds at the end of the string and just before a line feed that is
    the last character. *)
Definition at_eol (rest : string) : bool :=
  match rest with
  | EmptyString => true
  | String c EmptyString => Ascii.eqb c newline
  | String _ (String _ _) => false
  end.

(** Match the atoms at the current position.  [bol] tells whether the
    position is the start of the string, [rest] is the text from the position
    on.  The answer is the number of characters the match consumes. *)
Fixpoint match_here (atoms : list atom) (bol : bool) (rest : string) : option nat :=
  match atoms with
  | [] => Some O
  | Bol :: atoms' => if bol then match_here atoms' bol rest else None
  | Eol :: atoms' => if at_eol rest then match_here atoms' bol rest else None
  | Lit c :: atoms' =>
      match rest with
      | String d rest' =>
          if Ascii.eqb c d then S <$> match_here atoms' false rest' else None
      | EmptyString => None
      end
  end.

(** The [count] argument of [re.sub]: [0] replaces every match. *)
Definition quota_of_count (count : nat) : option nat :=
  match count with O => None | S _ => Some count end.

Definition exhausted (quota : option nat) : bool :=
  match quota with Some O => true | _ => false end.

Definition spend (quota : option nat) : option nat := Nat.pred <$> quota.

(** The scan of [re.sub]: leftmost matches, not overlapping, replaced from
    left to right while the quota lasts.  [skip] counts the characters of the
    current match that are still to be dropped.  After an empty match the
    scan copies one character and goes on behind it. *)
Fixpoint subx (atoms : list atom) (repl : string) (quota : option nat)
    (bol : bool) (skip : nat) (rest : string) : string :=
  match skip with
  | S k =>
      match rest with
      | String _ rest' => subx atoms repl quota false k rest'
      | EmptyString => EmptyString
      end
  | O =>
      if exhausted quota then rest
      else
        match match_here atoms bol rest with
        | Some O =>
            repl +:+
            match rest with
            | String c rest' => String c (subx atoms repl (spend quota) false O rest')
            | EmptyString => EmptyString
            end
        | Some (S k) =>
            repl +:+
            match rest with
            | String _ rest' => subx atoms repl (spend quota) false k rest'
            | EmptyString => EmptyString
            end
        | None =>
            match rest with
            | String c rest' => String c (subx atoms repl quota false O rest')
            | EmptyString => EmptyString
            end
        end
  end.

(** [re.sub(pattern, repl, string, count)]; [None] when the pattern or the
    replacement is outside the fragment. *)
Definition sub (pattern repl : string) (value : string) (count : nat) : option string :=
  atoms ← compile pattern;
  r ← template repl;
  Some (subx atoms r (quota_of_count count) true O value).

(** [re.search]: the offset and the length of the leftmost match. *)
Fixpoint search (atoms : list atom) (bol : bool) (rest : string) : option (nat * nat) :=
  match match_here atoms bol rest with
  | Some k => Some (O, k)
  | None =>
      match rest with
      | String _ rest' => prod_map S id <$> search atoms false rest'
      | EmptyString => None
      end
  end.

Definition lits (t : string) : list atom := map Lit (list_ascii_of_string t).

End Re.

(** ** The transformers of the [preview] field (config.py, lines 103-106) *)

Definition div_open : string :=
  "<div class=" +:+ String dquote "csl-entry" +:+ String dquote ">".

Definition preview_open (value : string) : option string :=
  Re.sub "^<span>" div_open value 1.

Definition preview_close (value : string) : option string :=
  Re.sub "</span>$" "</div>" value 1.

Definition preview_transformers : list (string -> option string) :=
  [preview_open; preview_close].

(** [TransformerExtractor.apply_transformers]: the transformers are applied
    in the order of the list, each to the result of the one before. *)
Definition apply_transformers (transformers : list (string -> option string))
    (value : string) : option string :=
  fold_left (fun acc transformer => acc ≫= transformer) transformers (Some value).

Definition preview_rewrite (value : string) : option string :=
  apply_transformers preview_transformers value.


(** ** What the two substitutions compute

    The compiled patterns, and the two substitutions written with
    [startswith] and [endswith]; the facts below relate them to [Re.sub]. *)

Section RewriterSpec.
Import Re.

Definition open_atoms : list atom := Bol :: lits "<span>".
Definition close_atoms : list atom := lits "</span>" ++ [Eol].

(** The closing pattern matches at a position when the rest of the text is
    the tag, or the tag and one line feed. *)
Definition close_at (rest : string) : bool :=
  startswith "</span>" rest && at_eol (drop 7 rest).

(** What the closing substitution computes, in terms of [endswith]. *)
Definition close_hit (s : string) : bool :=
  endswith "</span>" s || endswith ("</span>" +:+ nl) s.

Definition close_spec (s : string) : string :=
  if endswith "</span>" s
  then take (String.length s - 7) s +:+ "</div>"
  else if endswith ("</span>" +:+ nl) s
  then take (String.length s - 8) s +:+ "</div>" +:+ nl
  else s.

Definition open_spec (s : string) : string :=
  if startswith "<span>" s then div_open +:+ drop 6 s else s.

(** The shape of an output [r] for an input [s]: an opening tag [o] at the
    start and a closing tag [c] at the end are replaced by [o'] and [c'], or
    left out of the account when they are empty, and the text [m] between
    them is kept. *)
Definition replaced_open (o o' : string) : Prop :=
  (o = EmptyString /\ o' = EmptyString) \/ (o = "<span>" /\ o' = div_open).

Definition replaced_close (c c' : string) : Prop :=
  (c = EmptyString /\ c' = EmptyString) \/ (c = "</span>" /\ c' = "</div>").

Definition rewritten_strictly (s r : string) : Prop :=
  exists o m c o' c',
    s = o +:+ m +:+ c /\ r = o' +:+ m +:+ c' /\
    replaced_open o o' /\ replaced_close c c'.

(** The same with a tail [t] behind the closing tag: nothing, or one line
    feed behind a replaced tag. *)
Definition rewritten (s r : string) : Prop :=
  exists o m c t o' c',
    s = o +:+ m +:+ c +:+ t /\ r = o' +:+ m +:+ c' +:+ t /\
    replaced_open o o' /\ replaced_close c c' /\
    (t = EmptyString \/ (t = nl /\ c = "</span>")).

(** The closing substitution has turned [v] into [c]: [v] ends with the
    closing tag, or with the tag and one line feed, and [c] is [v] with that
    tag replaced. *)
Definition closing_replaced (v c : string) : Prop :=
  exists p t,
    (t = EmptyString \/ t = nl) /\
    v = p +:+ "</span>" +:+ t /\ c = p +:+ "</div>" +:+ t.

End RewriterSpec.

(** ** The objects that the module builds *)

(** [whoosh.fields]: the module uses [STORED]; the fields that Kerko installs
    by itself have other types. *)
Inductive field_type : Type :=
| STORED
| OtherFieldType (name : string).

Inductive codec : Type :=
| JSONFieldCodec
| OtherCodec (name : string).

(** A transformer is a callable.  [extra_field_cleaner] is imported from
    [app/transformers.py] and only passed on; the two of the [preview] field
    are the lambdas of the module. *)
Inductive transformer : Type :=
| extra_field_cleaner
| Lambda (f : string -> option string).

Inductive extractor : Type :=
| RawDataExtractor
| ItemExtractor (key format_ : string)
| TransformerExtractor (inner : extractor) (transformers : list transformer)
| OtherExtractor (name : string).

Record FieldSpec : Type := {
  field_key : string;
  field_type_of : field_type;
  field_extractor : extractor;
  field_codec : option codec (* [None]: the argument is left out *)
}.

Record CollectionFacetSpec : Type := {
  facet_key : string;
  filter_key : string;
  title : string;
  weight : Z;
  collection_key : string
}.

(** [kerko.composer.Composer]: the arguments of the constructor and the two
    registries, which are dictionaries from key to descriptor. *)
Record Composer : Type := {
  whoosh_language : string;
  exclude_default_facets : list string;
  exclude_default_fields : list string;
  default_child_include_re : string;
  default_child_exclude_re : string;
  fields : gmap string FieldSpec;
  facets : gmap string CollectionFacetSpec
}.

Definition Composer_add_field (spec : FieldSpec) (c : Composer) : Composer :=
  {| whoosh_language := whoosh_language c;
     exclude_default_facets := exclude_default_facets c;
     exclude_default_fields := exclude_default_fields c;
     default_child_include_re := default_child_include_re c;
     default_child_exclude_re := default_child_exclude_re c;
     fields := <[field_key spec := spec]> (fields c);
     facets := facets c |}.

Definition Composer_add_facet (spec : CollectionFacetSpec) (c : Composer) : Composer :=
  {| whoosh_language := whoosh_language c;
     exclude_default_facets := exclude_default_facets c;
     exclude_default_fields := exclude_default_fields c;
     default_child_include_re := default_child_include_re c;
     default_child_exclude_re := default_child_exclude_re c;
     fields := fields c;
     facets := <[facet_key spec := spec]> (facets c) |}.

(** ** The libraries behind the module

    What the module calls and does not define: [pathlib], [flask_babel],
    the parsers of [environs], and the registries that the constructor of the
    composer fills by itself. *)
Class Externals : Type := {
  path : Type;
  Path : string -> path;
  parent : path -> path;
  absolute : path -> path;
  joinpath : path -> string -> path;      (* the operator [/] *)
  path_str : path -> string;              (* [str(p)] *)
  module_file : string;                   (* [__file__] *)
  gettext : string -> string;
  parse_bool : string -> option bool;
  parse_int : string -> option Z;
  default_fields : list string -> gmap string FieldSpec;
  default_facets : list string -> gmap string CollectionFacetSpec
}.

Inductive env_type : Type := TStr | TBool | TInt.

(** What the evaluation of the module does and an observer can see. *)
Inductive event : Type :=
| EnvRead (name : string) (ty : env_type)
| ComposerCreated (l : nat)
| FieldAdded (l : nat) (key : string)
| FacetAdded (l : nat) (key : string)
| ClassCreated (name : string).

Inductive exn : Type :=
| EnvError (name : string)             (* the variable is not set *)
| EnvValidationError (name : string)   (* the value does not parse *).

Section Module.

Context {X : Externals}.

(** The values of class attributes.  A composer is held by reference. *)
Inductive value : Type :=
| VStr (s : string)
| VBool (b : bool)
| VInt (z : Z)
| VList (l : list string)
| VPath (p : path)
| VRef (l : nat).

Record class_obj : Type := {
  cls_base : option string;
  cls_dict : gmap string value
}.

(** The state of the interpreter while the module is evaluated: the events so
    far, the composers allocated, the namespace of the class body under
    evaluation, the classes created, and the global [CONFIGS]. *)
Record state : Type := {
  trace : list event;
  heap : list Composer;
  locals : gmap string value;
  classes : gmap string class_obj;
  CONFIGS : option (gmap string string)
}.

Definition initial : state :=
  {| trace := []; heap := []; locals := ∅; classes := ∅; CONFIGS := None |}.

Definition set_trace (t : list event) (st : state) : state :=
  {| trace := t; heap := heap st; locals := locals st;
     classes := classes st; CONFIGS := CONFIGS st |}.

Definition set_heap (h : list Composer) (st : state) : state :=
  {| trace := trace st; heap := h; locals := locals st;
     classes := classes st; CONFIGS := CONFIGS st |}.

Definition set_locals (d : gmap string value) (st : state) : state :=
  {| trace := trace st; heap := heap st; locals := d;
     classes := classes st; CONFIGS := CONFIGS st |}.

Definition set_classes (c : gmap string class_obj) (st : state) : state :=
  {| trace := trace st; heap := heap st; locals := locals st;
     classes := c; CONFIGS := CONFIGS st |}.

Definition set_CONFIGS (c : gmap string string) (st : state) : state :=
  {| trace := trace st; heap := heap st; locals := locals st;
     classes := classes st; CONFIGS := Some c |}.

(** A statement returns, or raises; either way it leaves a state. *)
Inductive result (A : Type) : Type :=
| Returned (a : A) (st : state)
| Raised (e : exn) (st : state).

Arguments Returned {A} a st.
Arguments Raised {A} e st.

Definition M (A : Type) : Type := state -> result A.

#[local] Instance M_ret : MRet M := fun A a st => Returned a st.

#[local] Instance M_bind : MBind M := fun A B f m st =>
  match m st with
  | Returned a st' => f a st'
  | Raised e st' => Raised e st'
  end.

Definition raise {A : Type} (e : exn) : M A := fun st => Raised e st.

Definition log (e : event) : M unit :=
  fun st => Returned tt (set_trace (trace st ++ [e]) st).

(** [os.environ], after [env.read_env()] has merged the [.env] file. *)
Variable environ : gmap string string.

(** [env.str(name)], [env.str(name, default)] and the like: the value of
    the variable parsed, the default when the variable is not set, and an
    error when there is neither, or when the value does not parse. *)
Definition resolve {A : Type} (parse : string -> option A) (name : string)
    (default : option A) : exn + A :=
  match environ !! name with
  | Some raw =>
      match parse raw with
      | Some a => inr a
      | None => inl (EnvValidationError name)
      end
  | None =>
      match default with
      | Some d => inr d
      | None => inl (EnvError name)
      end
  end.

Definition env_read {A : Type} (ty : env_type) (parse : string -> option A)
    (name : string) (default : option A) : M A :=
  log (EnvRead name ty);;
  match resolve parse name default with
  | inr a => mret a
  | inl e => raise e
  end.

Definition env_str : string -> option string -> M string := env_read TStr Some.
Definition env_bool : string -> option bool -> M bool := env_read TBool parse_bool.
Definition env_int : string -> option Z -> M Z := env_read TInt parse_int.

(** An assignment in a class body binds the name in the namespace of the
    body. *)
Definition store (name : string) (v : value) : M unit :=
  fun st => Returned tt (set_locals (<[name := v]> (locals st)) st).

(** [Composer(...)]: a new object, whose registries hold what the constructor
    installs by default. *)
Definition Composer_new (language : string) (no_facets no_fields : list string)
    (include_re exclude_re : string) : M nat :=
  fun st =>
    let l := length (heap st) in
    let c := {| whoosh_language := language;
                exclude_default_facets := no_facets;
                exclude_default_fields := no_fields;
                default_child_include_re := include_re;
                default_child_exclude_re := exclude_re;
                fields := default_fields no_fields;
                facets := default_facets no_facets |} in
    Returned l (set_trace (trace st ++ [ComposerCreated l]) (set_heap (heap st ++ [c]) st)).

(** [composer.add_field(spec)] is [composer.fields[spec.key] = spec], on the
    object that the reference designates. *)
Definition add_field (l : nat) (spec : FieldSpec) : M unit :=
  fun st =>
    Returned tt (set_trace (trace st ++ [FieldAdded l (field_key spec)])
                   (set_heap (alter (Composer_add_field spec) l (heap st)) st)).

Definition add_facet (l : nat) (spec : CollectionFacetSpec) : M unit :=
  fun st =>
    Returned tt (set_trace (trace st ++ [FacetAdded l (facet_key spec)])
                   (set_heap (alter (Composer_add_facet spec) l (heap st)) st)).

(** [class name(base): body]: the body runs in a fresh namespace, and the
    class is created from that namespace when the body has returned. *)
Definition class_def (name : string) (base : option string) (body : M unit) : M unit :=
  fun st =>
    match body (set_locals ∅ st) with
    | Returned _ st' =>
        Returned tt
          (set_trace (trace st' ++ [ClassCreated name])
             (set_classes
                (<[name := {| cls_base := base; cls_dict := locals st' |}]> (classes st'))
                (set_locals (locals st) st')))
    | Raised e st' => Raised e st'
    end.

Definition assign_CONFIGS (c : gmap string string) : M unit :=
  fun st => Returned tt (set_CONFIGS c st).

(** Attribute lookup on a class: its own namespace, then its bases. *)
Fixpoint getattr_from (depth : nat) (cs : gmap string class_obj)
    (cls attr : string) : option value :=
  match depth with
  | O => None
  | S depth' =>
      match cs !! cls with
      | None => None
      | Some c =>
          match cls_dict c !! attr with
          | Some v => Some v
          | None =>
              match cls_base c with
              | Some b => getattr_from depth' cs b attr
              | None => None
              end
          end
      end
  end.

Definition getattr (st : state) (cls attr : string) : option value :=
  getattr_from (size (classes st)) (classes st) cls attr.

(** *** The statements of the module *)

Definition static_src_vendor : path :=
  joinpath (joinpath (joinpath (parent (parent (Path module_file))) "static") "src") "vendor".

(** The descriptors of lines 77-140. *)
Definition data_field : FieldSpec :=
  {| field_key := "data";
     field_type_of := STORED;
     field_extractor :=
       TransformerExtractor RawDataExtractor [extra_field_cleaner];
     field_codec := Some JSONFieldCodec |}.

Definition preview_field : FieldSpec :=
  {| field_key := "preview";
     field_type_of := STORED;
     field_extractor :=
       TransformerExtractor (ItemExtractor "citation" "citation")
         (map Lambda preview_transformers);
     field_codec := None |}.

Definition proposal_facet : CollectionFacetSpec :=
  {| facet_key := "facet_proposal";
     filter_key := "proposal";
     title := gettext "Our proposal";
     weight := 10;
     collection_key := "XWXU8XAB" |}.

Definition theme_facet : CollectionFacetSpec :=
  {| facet_key := "facet_theme";
     filter_key := "theme";
     title := gettext "Theme";
     weight := 20;
     collection_key := "Z27MIXI7" |}.

Definition location_facet : CollectionFacetSpec :=
  {| facet_key := "facet_location";
     filter_key := "location";
     title := gettext "Location";
     weight := 30;
     collection_key := "5JVH374W" |}.

(** The body of [class Config] (lines 18-140). *)
Definition Config_body : M unit :=
  flask_app ← env_str "FLASK_APP" None;
  let app_dir := absolute (parent (Path flask_app)) in
  store "app_dir" (VPath app_dir);;
  secret_key ← env_str "SECRET_KEY" None;
  store "SECRET_KEY" (VStr secret_key);;
  api_key ← env_str "KERKO_ZOTERO_API_KEY" None;
  store "KERKO_ZOTERO_API_KEY" (VStr api_key);;
  library_id ← env_str "KERKO_ZOTERO_LIBRARY_ID" None;
  store "KERKO_ZOTERO_LIBRARY_ID" (VStr library_id);;
  library_type ← env_str "KERKO_ZOTERO_LIBRARY_TYPE" None;
  store "KERKO_ZOTERO_LIBRARY_TYPE" (VStr library_type);;
  data_dir ← env_str "KERKO_DATA_DIR"
    (Some (path_str (joinpath (joinpath app_dir "data") "kerko")));
  store "KERKO_DATA_DIR" (VStr data_dir);;
  store "LOGGING_HANDLER" (VStr "default");;
  store "EXPLAIN_TEMPLATE_LOADING" (VBool false);;
  store "LIBSASS_INCLUDES"
    (VList [path_str (joinpath (joinpath static_src_vendor "bootstrap") "scss");
            path_str (joinpath (joinpath (joinpath static_src_vendor "@fortawesome")
                                  "fontawesome-free") "scss")]);;
  store "BABEL_DEFAULT_LOCALE" (VStr "en_GB");;
  let KERKO_WHOOSH_LANGUAGE := "en" in
  store "KERKO_WHOOSH_LANGUAGE" (VStr KERKO_WHOOSH_LANGUAGE);;
  store "KERKO_ZOTERO_LOCALE" (VStr "en-GB");;
  store "HOME_URL" (VStr "https://is.eved.io");;
  store "HOME_TITLE" (VStr (gettext "Implementation Science"));;
  store "NAV_TITLE" (VStr (gettext "Home"));;
  store "KERKO_TITLE" (VStr (gettext "Implementation Science"));;
  store "EVED_IO_TITLE" (VStr (gettext "eved.io"));;
  store "EVED_IO_LINK" (VStr (gettext "https://eved.io"));;
  store "KERKO_PRINT_ITEM_LINK" (VBool true);;
  store "KERKO_PRINT_CITATIONS_LINK" (VBool true);;
  store "KERKO_RESULTS_FIELDS"
    (VList ["id"; "attachments"; "bib"; "coins"; "data"; "preview"; "url"]);;
  store "KERKO_RESULTS_ABSTRACTS" (VBool true);;
  store "KERKO_RESULTS_ABSTRACTS_MAX_LENGTH" (VInt 500);;
  store "KERKO_RESULTS_ABSTRACTS_MAX_LENGTH_LEEWAY" (VInt 40);;
  store "KERKO_TEMPLATE_BASE" (VStr "app/base.html.jinja2");;
  store "KERKO_TEMPLATE_LAYOUT" (VStr "app/layout.html.jinja2");;
  store "KERKO_TEMPLATE_SEARCH" (VStr "app/search.html.jinja2");;
  store "KERKO_TEMPLATE_SEARCH_ITEM" (VStr "app/search-item.html.jinja2");;
  store "KERKO_TEMPLATE_ITEM" (VStr "app/item.html.jinja2");;
  store "KERKO_DOWNLOAD_ATTACHMENT_NEW_WINDOW" (VBool true);;
  store "KERKO_RELATIONS_INITIAL_LIMIT" (VInt 50);;
  store "KERKO_CSL_STYLE"
    (VStr "https://docs.edtechhub.org/static/dist/csl/eth_apa.xml?202012301815");;
  KERKO_COMPOSER ← Composer_new KERKO_WHOOSH_LANGUAGE
    ["facet_tag"; "facet_link"; "facet_item_type"] ["data"]
    "^(_publish|publishPDF)$" EmptyString;
  store "KERKO_COMPOSER" (VRef KERKO_COMPOSER);;
  add_field KERKO_COMPOSER data_field;;
  add_field KERKO_COMPOSER preview_field;;
  add_facet KERKO_COMPOSER proposal_facet;;
  add_facet KERKO_COMPOSER theme_facet;;
  add_facet KERKO_COMPOSER location_facet.

(** The body of [class DevelopmentConfig(Config)] (lines 144-150). *)
Definition DevelopmentConfig_body : M unit :=
  store "CONFIG" (VStr "development");;
  store "DEBUG" (VBool true);;
  assets_debug ← env_bool "ASSETS_DEBUG" (Some true);
  store "ASSETS_DEBUG" (VBool assets_debug);;
  zotero_start ← env_int "KERKO_ZOTERO_START" (Some 0%Z);
  store "KERKO_ZOTERO_START" (VInt zotero_start);;
  zotero_end ← env_int "KERKO_ZOTERO_END" (Some 0%Z);
  store "KERKO_ZOTERO_END" (VInt zotero_end);;
  store "LIBSASS_STYLE" (VStr "expanded");;
  logging_level ← env_str "LOGGING_LEVEL" (Some "DEBUG");
  store "LOGGING_LEVEL" (VStr logging_level).

(** The body of [class ProductionConfig(Config)] (lines 154-160). *)
Definition ProductionConfig_body : M unit :=
  store "CONFIG" (VStr "production");;
  store "DEBUG" (VBool false);;
  assets_debug ← env_bool "ASSETS_DEBUG" (Some false);
  store "ASSETS_DEBUG" (VBool assets_debug);;
  store "ASSETS_AUTO_BUILD" (VBool false);;
  logging_level ← env_str "LOGGING_LEVEL" (Some "WARNING");
  store "LOGGING_LEVEL" (VStr logging_level);;
  store "GOOGLE_ANALYTICS_ID" (VStr EmptyString);;
  store "LIBSASS_STYLE" (VStr "compressed").

Definition CONFIGS_dict : gmap string string :=
  <["development" := "DevelopmentConfig"]> (<["production" := "ProductionConfig"]> ∅).

(** The statements that follow the body of [Config]. *)
Definition after_Config : M unit :=
  class_def "DevelopmentConfig" (Some "Config") DevelopmentConfig_body;;
  class_def "ProductionConfig" (Some "Config") ProductionConfig_body;;
  assign_CONFIGS CONFIGS_dict.

Definition module_body : M unit :=
  class_def "Config" None Config_body;;
  after_Config.

(** Importing the module. *)
Definition run : result unit := module_body initial.

End Module.

Arguments Returned {X A} a st.
Arguments Raised {X A} e st.

(** ** An instance to evaluate the module on

    Paths are strings that are joined with a slash, texts are not translated,
    and the parsers read [true] and [false] and unsigned decimal numbers. *)

Definition sample_parse_bool (raw : string) : option bool :=
  if String.eqb raw "true" then Some true
  else if String.eqb raw "false" then Some false
  else None.

Definition digit (c : ascii) : option Z :=
  let n := Z.of_nat (nat_of_ascii c) in
  if (48 <=? n)%Z && (n <=? 57)%Z then Some (n - 48)%Z else None.

Fixpoint digits (acc : Z) (raw : string) : option Z :=
  match raw with
  | EmptyString => Some acc
  | String c rest =>
      match digit c with
      | Some d => digits (10 * acc + d)%Z rest
      | None => None
      end
  end.

Definition sample_parse_int (raw : string) : option Z :=
  match raw with
  | EmptyString => None
  | String _ _ => digits 0%Z raw
  end.

Definition sample : Externals :=
  {| path := string;
     Path := fun s => s;
     parent := fun p => p +:+ "/..";
     absolute := fun p => "/srv/" +:+ p;
     joinpath := fun p q => p +:+ "/" +:+ q;
     path_str := fun p => p;
     module_file := "app/config.py";
     gettext := fun s => s;
     parse_bool := sample_parse_bool;
     parse_int := sample_parse_int;
     default_fields := fun _ => ∅;
     default_facets := fun _ => ∅ |}.

(** Only the required variables are set. *)
Definition minimal_environ : gmap string string :=
  <["FLASK_APP" := "wsgi.py"]>
  (<["SECRET_KEY" := "s3cret"]>
  (<["KERKO_ZOTERO_API_KEY" := "k3y"]>
  (<["KERKO_ZOTERO_LIBRARY_ID" := "2405685"]>
  (<["KERKO_ZOTERO_LIBRARY_TYPE" := "group"]> ∅)))).

(** Every variable is set. *)
Definition full_environ : gmap string string :=
  <["KERKO_DATA_DIR" := "/var/kerko"]>
  (<["ASSETS_DEBUG" := "false"]>
  (<["KERKO_ZOTERO_START" := "100"]>
  (<["KERKO_ZOTERO_END" := "250"]>
  (<["LOGGING_LEVEL" := "INFO"]> minimal_environ)))).

(** The state in which an evaluation ends. *)
Definition final {X : Externals} {A : Type} (r : result A) : state :=
  match r with
  | Returned _ st => st
  | Raised _ st => st
  end.

(** ** The environments under which the module loads *)

Section Conditions.

Context {X : Externals}.
Variable environ : gmap string string.

(** The variables read without a default. *)
Definition required : list string :=
  ["FLASK_APP"; "SECRET_KEY"; "KERKO_ZOTERO_API_KEY";
   "KERKO_ZOTERO_LIBRARY_ID"; "KERKO_ZOTERO_LIBRARY_TYPE"].

(** A variable that is set has a value of its type. *)
Definition parses {A : Type} (parse : string -> option A) (name : string) : Prop :=
  forall raw, environ !! name = Some raw -> is_Some (parse raw).

Definition loadable : Prop :=
  Forall (fun name => is_Some (environ !! name)) required /\
  parses parse_bool "ASSETS_DEBUG" /\
  parses parse_int "KERKO_ZOTERO_START" /\
  parses parse_int "KERKO_ZOTERO_END".

(** [a] is what the variable [name] stands for: its parsed value when it is
    set, the default when it is not. *)
Definition env_value {A : Type} (parse : string -> option A) (name : string)
    (default : A) (a : A) : Prop :=
  match environ !! name with
  | Some raw => parse raw = Some a
  | None => a = default
  end.

(** The class [cls] exposes under [attr] what the variable [name] stands
    for. *)
Definition exposes {A : Type} (st : state) (cls attr : string) (inj : A -> value)
    (parse : string -> option A) (name : string) (default : A) : Prop :=
  exists a, getattr st cls attr = Some (inj a) /\ env_value parse name default a.

(** The typed reads of the environment, in the order of the evaluation. *)
Definition reads (st : state) : list (string * env_type) :=
  omap (fun e => match e with EnvRead name ty => Some (name, ty) | _ => None end)
       (trace st).

(** The keys registered with the composer at [l], in the order of the
    registrations. *)
Definition added_fields (l : nat) (st : state) : list string :=
  omap (fun e => match e with
                 | FieldAdded l' key => if Nat.eqb l l' then Some key else None
                 | _ => None
                 end) (trace st).

Definition added_facets (l : nat) (st : state) : list string :=
  omap (fun e => match e with
                 | FacetAdded l' key => if Nat.eqb l l' then Some key else None
                 | _ => None
                 end) (trace st).

(** The ten variables and the type each is read with. *)
Definition var_types : list (string * env_type) :=
  [("FLASK_APP", TStr); ("SECRET_KEY", TStr); ("KERKO_ZOTERO_API_KEY", TStr);
   ("KERKO_ZOTERO_LIBRARY_ID", TStr); ("KERKO_ZOTERO_LIBRARY_TYPE", TStr);
   ("KERKO_DATA_DIR", TStr); ("ASSETS_DEBUG", TBool);
   ("KERKO_ZOTERO_START", TInt); ("KERKO_ZOTERO_END", TInt);
   ("LOGGING_LEVEL", TStr)].

Definition has_type (v : value) (ty : env_type) : Prop :=
  match v, ty with
  | VStr _, TStr => True
  | VBool _, TBool => True
  | VInt _, TInt => True
  | _, _ => False
  end.

(** The typed reads made while the body of the class [cls] is evaluated:
    those between the creation of the class before it and its own. *)
Fixpoint body_reads (cls : string) (pending : list (string * env_type))
    (events : list event) : list (string * env_type) :=
  match events with
  | [] => []
  | EnvRead name ty :: events' => body_reads cls (pending ++ [(name, ty)]) events'
  | ClassCreated c :: events' =>
      if String.eqb c cls then pending else body_reads cls [] events'
  | _ :: events' => body_reads cls pending events'
  end.

Definition reads_of (st : state) (cls : string) : list (string * env_type) :=
  body_reads cls [] (trace st).

(** What a configuration consumes: the reads of the bodies of its bases,
    then those of its own body. *)
Fixpoint consumed_from (depth : nat) (st : state) (cls : string)
    : list (string * env_type) :=
  match depth with
  | O => []
  | S depth' =>
      match classes st !! cls with
      | None => []
      | Some c =>
          match cls_base c with
          | Some b => consumed_from depth' st b
          | None => []
          end ++ reads_of st cls
      end
  end.

Definition consumed (st : state) (cls : string) : list (string * env_type) :=
  consumed_from (size (classes st)) st cls.

(** The variables of [var_types] without the two that only the development
    configuration reads. *)
Definition production_var_types : list (string * env_type) :=
  List.filter
    (fun p => negb (String.eqb (fst p) "KERKO_ZOTERO_START" ||
                    String.eqb (fst p) "KERKO_ZOTERO_END"))
    var_types.

(** The names bound in the bodies of the two subclasses. *)
Definition development_names : list string :=
  ["CONFIG"; "DEBUG"; "ASSETS_DEBUG"; "KERKO_ZOTERO_START"; "KERKO_ZOTERO_END";
   "LIBSASS_STYLE"; "LOGGING_LEVEL"].

Definition production_names : list string :=
  ["CONFIG"; "DEBUG"; "ASSETS_DEBUG"; "ASSETS_AUTO_BUILD"; "LOGGING_LEVEL";
   "GOOGLE_ANALYTICS_ID"; "LIBSASS_STYLE"].

End Conditions.

(** ** The outcome of an import, read off the environment *)

Section ImportOutcome.

Context {X : Externals}.
Variable environ : gmap string string.

Definition is_unset (name : string) : bool :=
  match environ !! name with
  | None => true
  | Some _ => false
  end.

(** The first required variable, in the order of the reads, that is not
    set. *)
Definition first_missing : option string := List.find is_unset required.

(** The variable is set to a value that its parser refuses. *)
Definition unparseable {A : Type} (parse : string -> option A) (name : string) : bool :=
  match environ !! name with
  | Some raw =>
      match parse raw with
      | Some _ => false
      | None => true
      end
  | None => false
  end.

(** The first typed variable, in the order of the reads, with such a
    value. *)
Definition first_invalid : option string :=
  if unparseable parse_bool "ASSETS_DEBUG" then Some "ASSETS_DEBUG"
  else if unparseable parse_int "KERKO_ZOTERO_START" then Some "KERKO_ZOTERO_START"
  else if unparseable parse_int "KERKO_ZOTERO_END" then Some "KERKO_ZOTERO_END"
  else None.

Definition import_error : option exn :=
  match first_missing with
  | Some name => Some (EnvError name)
  | None => EnvValidationError <$> first_invalid
  end.

(** What a variable read with a default stands for when it parses. *)
Definition value_of {A : Type} (parse : string -> option A) (name : string)
    (default : A) : A :=
  match environ !! name with
  | Some raw =>
      match parse raw with
      | Some a => a
      | None => default
      end
  | None => default
  end.

(** The attributes whose value comes from the environment. *)
Definition environment_names : list string :=
  ["app_dir"; "SECRET_KEY"; "KERKO_ZOTERO_API_KEY"; "KERKO_ZOTERO_LIBRARY_ID";
   "KERKO_ZOTERO_LIBRARY_TYPE"; "KERKO_DATA_DIR"; "ASSETS_DEBUG";
   "KERKO_ZOTERO_START"; "KERKO_ZOTERO_END"; "LOGGING_LEVEL"].

End ImportOutcome.

(** An environment with a start that is not a number. *)
Definition invalid_environ : gmap string string :=
  <["KERKO_ZOTERO_START" := "soon"]> minimal_environ.
(** ** Facts about text *)

Section Text.

Implicit Types s t p u : string.

Lemma append_nil_r s : s +:+ EmptyString = s.
Proof. induction s as [|c s IH]; simpl; [reflexivity | now rewrite IH]. Qed.

Lemma append_assoc s t u : (s +:+ t) +:+ u = s +:+ (t +:+ u).
Proof. induction s as [|c s IH]; simpl; [reflexivity | now rewrite IH]. Qed.

Lemma length_append s t : String.length (s +:+ t) = (String.length s + String.length t)%nat.
Proof. induction s as [|c s IH]; simpl; [reflexivity | now rewrite IH]. Qed.

Lemma drop_0 s : drop 0 s = s.
Proof. now destruct s. Qed.

Lemma drop_app p u k : drop (String.length p + k) (p +:+ u) = drop k u.
Proof. induction p as [|c p IH]; simpl; [reflexivity | exact IH]. Qed.

Lemma drop_length_app p u : drop (String.length p) (p +:+ u) = u.
Proof.
  rewrite <- (Nat.add_0_r (String.length p)), drop_app. apply drop_0.
Qed.

Lemma take_length_app p u : take (String.length p) (p +:+ u) = p.
Proof. induction p as [|c p IH]; simpl; [reflexivity | now rewrite IH]. Qed.

Lemma take_drop n s : take n s +:+ drop n s = s.
Proof.
  revert s; induction n as [|n IH]; intros [|c s]; simpl; try reflexivity.
  now rewrite IH.
Qed.

Lemma startswith_split t s :
  startswith t s = true -> s = t +:+ drop (String.length t) s.
Proof.
  revert s; induction t as [|c t IH]; intros s H; simpl.
  - reflexivity.
  - destruct s as [|d s]; simpl in H; [discriminate |].
    destruct (Ascii.eqb_spec c d) as [->|]; [| discriminate].
    simpl. f_equal. now apply IH.
Qed.

Lemma endswith_app p t : endswith t (p +:+ t) = true.
Proof.
  unfold endswith. rewrite length_append.
  replace (String.length p + String.length t - String.length t)%nat
    with (String.length p) by lia.
  rewrite drop_length_app, String.eqb_refl.
  rewrite andb_true_r. apply Nat.leb_le. lia.
Qed.

Lemma endswith_split t s :
  endswith t s = true ->
  s = take (String.length s - String.length t) s +:+ t.
Proof.
  unfold endswith. intros H. apply andb_true_iff in H as [_ H].
  apply String.eqb_eq in H.
  pose proof (take_drop (String.length s - String.length t) s) as E.
  rewrite H in E. now symmetry.
Qed.

(** The last [k] characters of a text decide its tail. *)
Lemma app_inv_tail_length p p' u u' :
  String.length u = String.length u' ->
  p +:+ u = p' +:+ u' -> p = p' /\ u = u'.
Proof.
  revert p'; induction p as [|c p IH]; intros [|c' p'] Hlen H; simpl in *.
  - now split.
  - exfalso. apply (f_equal String.length) in H. simpl in H.
    rewrite length_append in H. lia.
  - exfalso. apply (f_equal String.length) in H. simpl in H.
    rewrite length_append in H. lia.
  - injection H as -> H. destruct (IH p' Hlen H) as [-> ->]. now split.
Qed.

End Text.

(** ** Facts about the scan of [re.sub] *)

Module ReFacts.
Import Re.

Lemma subx_exhausted atoms r b s : subx atoms r (Some O) b O s = s.
Proof. now destruct s. Qed.

Lemma subx_skip atoms r b k s : subx atoms r (Some O) b k s = drop k s.
Proof.
  revert b s; induction k as [|k IH]; intros b s.
  - rewrite subx_exhausted. now destruct s.
  - destruct s as [|c s]; simpl; [reflexivity | apply IH].
Qed.

(** With [count=1] the scan replaces the leftmost match, if there is one. *)
Lemma subx_once atoms r b s :
  subx atoms r (Some 1%nat) b O s =
  match search atoms b s with
  | Some (i, k) => take i s +:+ r +:+ drop (i + k) s
  | None => s
  end.
Proof.
  revert b; induction s as [|c s IH]; intros b.
  - simpl. destruct (match_here atoms b EmptyString) as [[|k]|]; simpl;
      now rewrite ?append_nil_r.
  - cbn [subx search exhausted spend fmap option_fmap option_map].
    destruct (match_here atoms b (String c s)) as [[|k]|].
    + cbn. now rewrite subx_exhausted.
    + cbn. now rewrite subx_skip.
    + rewrite IH. destruct (search atoms false s) as [[i k]|]; reflexivity.
Qed.

Lemma match_lits t atoms b s :
  t <> EmptyString ->
  match_here (lits t ++ atoms) b s =
  if startswith t s
  then Nat.add (String.length t) <$> match_here atoms false (drop (String.length t) s)
  else None.
Proof.
  revert b s; induction t as [|c t IH]; intros b s Hne; [congruence |].
  destruct s as [|d s]; [reflexivity |].
  cbn [lits list_ascii_of_string map app match_here startswith String.length drop].
  destruct (Ascii.eqb c d); [| reflexivity].
  destruct t as [|c' t].
  - cbn. now destruct (match_here atoms false s).
  - fold (lits (String c' t)). rewrite IH by discriminate.
    destruct (startswith (String c' t) s); [| reflexivity].
    now destruct (match_here atoms false (drop (String.length (String c' t)) s)).
Qed.

(** The scan on a few inputs: every match is replaced when [count] is [0],
    an empty match before a final line feed and one at the end, and a match
    is not looked for inside the text that a former match consumed. *)
Example sub_every_match :
  sub "a" "X" "banana" 0 = Some "bXnXnX" /\ sub "a" "X" "banana" 2 = Some "bXnXna".
Proof. split; reflexivity. Qed.

Example sub_empty_matches : sub "$" "X" ("ab" +:+ nl) 0 = Some ("abX" +:+ nl +:+ "X").
Proof. reflexivity. Qed.

Example sub_no_overlap : sub "aa" "X" "aaa" 0 = Some "Xa".
Proof. reflexivity. Qed.

Example sub_start_only : sub "^a" "X" "aa" 0 = Some "Xa".
Proof. reflexivity. Qed.

Example sub_outside_fragment : sub "a*" "X" "aa" 0 = None.
Proof. reflexivity. Qed.

End ReFacts.

(** ** The two substitutions of the rewriter *)

Section Rewriter.
Import Re ReFacts.

Lemma compile_open : compile "^<span>" = Some open_atoms.
Proof. reflexivity. Qed.

Lemma compile_close : compile "</span>$" = Some close_atoms.
Proof. reflexivity. Qed.

Lemma match_open_start s :
  match_here open_atoms true s = if startswith "<span>" s then Some 6%nat else None.
Proof.
  unfold open_atoms. cbn [match_here].
  rewrite <- (List.app_nil_r (lits "<span>")), match_lits by discriminate.
  now destruct (startswith "<span>" s).
Qed.

Lemma search_open_later s : search open_atoms false s = None.
Proof. induction s as [|c s IH]; simpl; [reflexivity | now rewrite IH]. Qed.

Lemma search_open s :
  search open_atoms true s = if startswith "<span>" s then Some (O, 6%nat) else None.
Proof.
  destruct s as [|c s]; [reflexivity |].
  cbn [search]. rewrite match_open_start.
  destruct (startswith "<span>" (String c s)); [reflexivity |].
  now rewrite search_open_later.
Qed.

Lemma match_close b s :
  match_here close_atoms b s = if close_at s then Some 7%nat else None.
Proof.
  unfold close_atoms, close_at. rewrite match_lits by discriminate.
  destruct (startswith "</span>" s); [| reflexivity].
  cbn [match_here String.length andb].
  now destruct (at_eol (drop 7 s)).
Qed.

Lemma at_eol_inv s : at_eol s = true -> s = EmptyString \/ s = nl.
Proof.
  destruct s as [|c [|d s]]; simpl; intros H; try discriminate; [now left |].
  right. now apply Ascii.eqb_eq in H as ->.
Qed.

Lemma close_at_inv s :
  close_at s = true -> s = "</span>" \/ s = "</span>" +:+ nl.
Proof.
  unfold close_at. intros H. apply andb_true_iff in H as [H1 H2].
  apply startswith_split in H1. apply at_eol_inv in H2.
  change (String.length "</span>") with 7%nat in H1.
  destruct H2 as [E|E]; rewrite E in H1; [left | right]; exact H1.
Qed.

Lemma search_close_hit b p t :
  t = EmptyString \/ t = nl ->
  search close_atoms b (p +:+ "</span>" +:+ t) = Some (String.length p, 7%nat).
Proof.
  intros Ht. revert b; induction p as [|c p IH]; intros b.
  - cbn [String.append search]. rewrite match_close.
    now destruct Ht as [-> | ->].
  - change (String c p +:+ "</span>" +:+ t)
      with (String c (p +:+ "</span>" +:+ t)).
    cbn [search]. rewrite match_close.
    destruct (close_at (String c (p +:+ "</span>" +:+ t))) eqn:E.
    + exfalso. apply close_at_inv in E.
      assert (L : String.length (String c (p +:+ "</span>" +:+ t)) =
                  (8 + String.length p + String.length t)%nat).
      { cbn [String.length]. rewrite !length_append. simpl. lia. }
      destruct E as [E|E]; rewrite E in L; simpl in L; [lia |].
      assert (p = EmptyString) by (destruct p; [reflexivity | simpl in L; lia]).
      assert (t = EmptyString) by (destruct t; [reflexivity | simpl in L; lia]).
      subst. discriminate.
    + rewrite IH. reflexivity.
Qed.

Lemma search_close_miss b s :
  (forall p t, t = EmptyString \/ t = nl -> s <> p +:+ "</span>" +:+ t) ->
  search close_atoms b s = None.
Proof.
  revert b; induction s as [|c s IH]; intros b H.
  - reflexivity.
  - cbn [search]. rewrite match_close.
    destruct (close_at (String c s)) eqn:E.
    + exfalso. apply close_at_inv in E as [E|E].
      * apply (H EmptyString EmptyString); [now left | exact E].
      * apply (H EmptyString nl); [now right | exact E].
    + rewrite IH; [reflexivity |].
      intros p t Ht ->. now apply (H (String c p) t).
Qed.

End Rewriter.

Section RewriterFacts.
Import Re ReFacts.

Lemma preview_open_eq s : preview_open s = Some (open_spec s).
Proof.
  unfold preview_open, sub. rewrite compile_open.
  change (template div_open) with (Some div_open).
  cbn [mbind option_bind quota_of_count]. f_equal.
  rewrite subx_once, search_open. unfold open_spec.
  now destruct (startswith "<span>" s).
Qed.

Lemma preview_close_search s :
  preview_close s =
  Some match search close_atoms true s with
       | Some (i, k) => take i s +:+ "</div>" +:+ drop (i + k) s
       | None => s
       end.
Proof.
  unfold preview_close, sub. rewrite compile_close.
  change (template "</div>") with (Some "</div>").
  cbn [mbind option_bind quota_of_count]. f_equal. apply subx_once.
Qed.

Lemma preview_close_hit p t :
  t = EmptyString \/ t = nl ->
  preview_close (p +:+ "</span>" +:+ t) = Some (p +:+ "</div>" +:+ t).
Proof.
  intros Ht. rewrite preview_close_search, (search_close_hit _ _ _ Ht).
  rewrite take_length_app, drop_app. do 2 f_equal.
Qed.

Lemma close_hit_split s :
  close_hit s = true ->
  exists p t, (t = EmptyString \/ t = nl) /\ s = p +:+ "</span>" +:+ t.
Proof.
  unfold close_hit. intros H. apply orb_true_iff in H as [H|H];
    apply endswith_split in H.
  - exists (take (String.length s - 7) s), EmptyString. split; [now left |].
    exact H.
  - exists (take (String.length s - 8) s), nl. split; [now right |].
    exact H.
Qed.

Lemma close_hit_app p t :
  t = EmptyString \/ t = nl -> close_hit (p +:+ "</span>" +:+ t) = true.
Proof.
  unfold close_hit. intros [-> | ->].
  - change ("</span>" +:+ EmptyString) with "</span>".
    now rewrite (endswith_app p "</span>").
  - rewrite (endswith_app p ("</span>" +:+ nl)). apply orb_true_r.
Qed.

Lemma preview_close_miss s : close_hit s = false -> preview_close s = Some s.
Proof.
  intros H. rewrite preview_close_search, search_close_miss; [reflexivity |].
  intros p t Ht ->. now rewrite close_hit_app in H.
Qed.

Lemma preview_close_eq s : preview_close s = Some (close_spec s).
Proof.
  unfold close_spec.
  destruct (endswith "</span>" s) eqn:E1.
  - pose proof (endswith_split _ _ E1) as E. rewrite E at 1.
    change (String.length "</span>") with 7%nat.
    apply (preview_close_hit _ EmptyString). now left.
  - destruct (endswith ("</span>" +:+ nl) s) eqn:E2.
    + pose proof (endswith_split _ _ E2) as E. rewrite E at 1.
      change (String.length ("</span>" +:+ nl)) with 8%nat.
      apply (preview_close_hit _ nl). now right.
    + apply preview_close_miss. unfold close_hit. now rewrite E1, E2.
Qed.

Lemma preview_rewrite_eq s : preview_rewrite s = preview_open s ≫= preview_close.
Proof. reflexivity. Qed.

Lemma preview_rewrite_spec s : preview_rewrite s = Some (close_spec (open_spec s)).
Proof.
  rewrite preview_rewrite_eq, preview_open_eq. cbn [mbind option_bind].
  apply preview_close_eq.
Qed.

End RewriterFacts.

Section Boundaries.

Ltac case_chars :=
  repeat match goal with
         | |- context [Ascii.eqb ?a ?b] => destruct (Ascii.eqb a b)
         end.

(** A tail that begins with [</] cannot complete an opening tag. *)
Lemma startswith_span_app s w :
  startswith "<span>" (s +:+ String "<" (String "/" w)) = startswith "<span>" s.
Proof.
  destruct s as [|c1 [|c2 [|c3 [|c4 [|c5 [|c6 s]]]]]]; cbn; case_chars; reflexivity.
Qed.

Lemma open_spec_app s w :
  open_spec (s +:+ String "<" (String "/" w)) = open_spec s +:+ String "<" (String "/" w).
Proof.
  unfold open_spec. rewrite startswith_span_app.
  destruct (startswith "<span>" s) eqn:E; [| reflexivity].
  apply startswith_split in E. rewrite E at 1.
  rewrite !append_assoc. reflexivity.
Qed.

Lemma open_spec_not_open s : startswith "<span>" (open_spec s) = false.
Proof.
  unfold open_spec. destruct (startswith "<span>" s) eqn:E; [reflexivity | exact E].
Qed.

Lemma endswith_app_long t p r :
  (String.length t <= String.length r)%nat -> endswith t (p +:+ r) = endswith t r.
Proof.
  intros H. unfold endswith. rewrite length_append.
  replace (String.length p + String.length r - String.length t)%nat
    with (String.length p + (String.length r - String.length t))%nat by lia.
  rewrite drop_app. f_equal.
  rewrite (proj2 (Nat.leb_le _ _) H). apply Nat.leb_le. lia.
Qed.

Ltac long_tail := apply endswith_app_long; simpl; lia.

Lemma endswith_close_span d :
  endswith "</span>" ("<span>" +:+ d) = endswith "</span>" d.
Proof.
  destruct d as [|c1 [|c2 [|c3 [|c4 [|c5 [|c6 [|c7 d]]]]]]];
    try reflexivity. long_tail.
Qed.

Lemma endswith_close_div d :
  endswith "</span>" (div_open +:+ d) = endswith "</span>" d.
Proof.
  destruct d as [|c1 [|c2 [|c3 [|c4 [|c5 [|c6 [|c7 d]]]]]]];
    try reflexivity. long_tail.
Qed.

Lemma endswith_close_nl_div d :
  endswith ("</span>" +:+ nl) (div_open +:+ d) = endswith ("</span>" +:+ nl) d.
Proof.
  destruct d as [|c1 [|c2 [|c3 [|c4 [|c5 [|c6 [|c7 [|c8 d]]]]]]]];
    try reflexivity. long_tail.
Qed.

Lemma close_hit_div d : close_hit (div_open +:+ d) = close_hit d.
Proof. unfold close_hit. now rewrite endswith_close_div, endswith_close_nl_div. Qed.

Lemma close_spec_hit p t :
  t = EmptyString \/ t = nl ->
  close_spec (p +:+ "</span>" +:+ t) = p +:+ "</div>" +:+ t.
Proof.
  intros Ht. pose proof (preview_close_hit p t Ht) as H.
  rewrite preview_close_eq in H. now injection H.
Qed.

Lemma close_spec_miss s : close_hit s = false -> close_spec s = s.
Proof.
  intros Hm. pose proof (preview_close_miss s Hm) as H.
  rewrite preview_close_eq in H. now injection H.
Qed.

Lemma close_spec_div d : close_spec (div_open +:+ d) = div_open +:+ close_spec d.
Proof.
  destruct (close_hit d) eqn:E.
  - destruct (close_hit_split _ E) as (m & t & Ht & ->).
    rewrite (close_spec_hit m t Ht).
    rewrite <- (append_assoc div_open m ("</span>" +:+ t)).
    rewrite <- (append_assoc div_open m ("</div>" +:+ t)).
    apply (close_spec_hit (div_open +:+ m) t Ht).
  - rewrite (close_spec_miss d E). apply close_spec_miss.
    now rewrite close_hit_div.
Qed.

(** Texts with different tails of the same length differ. *)
Lemma tail_differs p p' u u' :
  String.length u = String.length u' -> u <> u' -> p +:+ u <> p' +:+ u'.
Proof. intros Hl Hu H. now destruct (app_inv_tail_length _ _ _ _ Hl H). Qed.

Lemma close_hit_rewritten p t :
  t = EmptyString \/ t = nl -> close_hit (p +:+ "</div>" +:+ t) = false.
Proof.
  intros Ht. destruct (close_hit (p +:+ "</div>" +:+ t)) eqn:E; [| reflexivity].
  exfalso. destruct (close_hit_split _ E) as (p' & t' & Ht' & H).
  destruct Ht as [-> | ->], Ht' as [-> | ->]; revert H.
  - change (p' +:+ "</span>" +:+ EmptyString) with (p' +:+ "<" +:+ "/span>").
    rewrite <- (append_assoc p'). now apply tail_differs.
  - change (p +:+ "</div>" +:+ EmptyString) with (p +:+ "</div" +:+ ">").
    change (p' +:+ "</span>" +:+ nl) with (p' +:+ "</span>" +:+ nl +:+ EmptyString).
    rewrite <- (append_assoc p), <- (append_assoc p'), append_nil_r.
    now apply tail_differs.
  - change (p' +:+ "</span>" +:+ EmptyString) with (p' +:+ "</span" +:+ ">").
    change (p +:+ "</div>" +:+ nl) with (p +:+ "</div>" +:+ nl +:+ EmptyString).
    rewrite <- (append_assoc p), <- (append_assoc p'), append_nil_r.
    now apply tail_differs.
  - change (p' +:+ "</span>" +:+ nl) with (p' +:+ "<" +:+ "/span>" +:+ nl).
    rewrite <- (append_assoc p'). now apply tail_differs.
Qed.

Lemma close_spec_idem s : close_spec (close_spec s) = close_spec s.
Proof.
  destruct (close_hit s) eqn:E.
  - destruct (close_hit_split _ E) as (p & t & Ht & ->).
    rewrite (close_spec_hit p t Ht). apply close_spec_miss.
    now apply close_hit_rewritten.
  - now rewrite !(close_spec_miss s E).
Qed.

Lemma close_spec_not_open s :
  startswith "<span>" s = false -> startswith "<span>" (close_spec s) = false.
Proof.
  intros H. destruct (close_hit s) eqn:E.
  - destruct (close_hit_split _ E) as (p & t & Ht & ->).
    rewrite (close_spec_hit p t Ht).
    change (p +:+ "</div>" +:+ t) with (p +:+ String "<" (String "/" ("div>" +:+ t))).
    change (p +:+ "</span>" +:+ t)
      with (p +:+ String "<" (String "/" ("span>" +:+ t))) in H.
    now rewrite startswith_span_app in *.
  - now rewrite (close_spec_miss s E).
Qed.

Lemma rewrite_idem s :
  close_spec (open_spec (close_spec (open_spec s))) = close_spec (open_spec s).
Proof.
  assert (H : open_spec (close_spec (open_spec s)) = close_spec (open_spec s)).
  { unfold open_spec at 1.
    now rewrite (close_spec_not_open _ (open_spec_not_open s)). }
  rewrite H. apply close_spec_idem.
Qed.

(** The closing substitution on any text: the final tag replaced when the
    pattern matches, the text as it is when it does not. *)
Lemma close_spec_cases v :
  if close_hit v
  then closing_replaced v (close_spec v) /\ close_spec v <> v
  else close_spec v = v.
Proof.
  destruct (close_hit v) eqn:H; [| now apply close_spec_miss].
  destruct (close_hit_split _ H) as (p & t & Ht & ->).
  rewrite (close_spec_hit p t Ht). split.
  - exists p, t. repeat split. exact Ht.
  - intros E. pose proof (close_hit_rewritten p t Ht) as Hn.
    rewrite E, (close_hit_app p t Ht) in Hn. discriminate.
Qed.

End Boundaries.

(** ** Facts about the evaluation of the module *)

Section Evaluation.

Context {X : Externals}.
Variable environ : gmap string string.

Lemma resolve_set {A} (parse : string -> option A) name default raw a :
  environ !! name = Some raw -> parse raw = Some a ->
  resolve environ parse name default = inr a.
Proof. unfold resolve. now intros -> ->. Qed.

Lemma resolve_missing {A} (parse : string -> option A) name :
  environ !! name = None -> resolve environ parse name None = inl (EnvError name).
Proof. unfold resolve. now intros ->. Qed.

Lemma resolve_value {A} (parse : string -> option A) name d a :
  resolve environ parse name (Some d) = inr a -> env_value environ parse name d a.
Proof.
  unfold resolve, env_value. destruct (environ !! name) as [raw|].
  - destruct (parse raw); [now intros [= ->] | discriminate].
  - now intros [= ->].
Qed.

Lemma resolve_required name v :
  resolve environ Some name None = inr v -> environ !! name = Some v.
Proof.
  unfold resolve. destruct (environ !! name); [now intros [= ->] | discriminate].
Qed.

Lemma resolve_parses {A} (parse : string -> option A) name d :
  parses environ parse name -> exists a, resolve environ parse name (Some d) = inr a.
Proof.
  unfold parses, resolve. intros H. destruct (environ !! name) as [raw|]; [| eauto].
  destruct (H raw eq_refl) as [a ->]. eauto.
Qed.

Lemma resolve_returned {A} (parse : string -> option A) name d a :
  resolve environ parse name d = inr a -> parses environ parse name.
Proof.
  unfold resolve, parses. intros H raw Hraw. rewrite Hraw in H.
  destruct (parse raw); [eauto | discriminate].
Qed.

Lemma resolve_str name d : exists a, resolve environ Some name (Some d) = inr a.
Proof. unfold resolve. destruct (environ !! name); eauto. Qed.

Lemma getattr_from_root depth (cs : gmap string class_obj) cls c attr :
  cs !! cls = Some c -> cls_base c = None ->
  getattr_from (S depth) cs cls attr = cls_dict c !! attr.
Proof.
  intros Hc Hb. cbn [getattr_from]. rewrite Hc, Hb.
  now destruct (cls_dict c !! attr).
Qed.

Lemma getattr_from_sub depth (cs : gmap string class_obj) cls c b attr :
  cs !! cls = Some c -> cls_base c = Some b ->
  getattr_from (S depth) cs cls attr =
  match cls_dict c !! attr with
  | Some v => Some v
  | None => getattr_from depth cs b attr
  end.
Proof. intros Hc Hb. cbn [getattr_from]. now rewrite Hc, Hb. Qed.

End Evaluation.

(** Unfold the statements of the module down to the reads of the
    environment. *)
Ltac unfold_module :=
  cbv [run module_body after_Config class_def Config_body
       DevelopmentConfig_body ProductionConfig_body
       mbind mret M_bind M_ret env_str env_bool env_int env_read log raise
       store Composer_new add_field add_facet assign_CONFIGS
       set_trace set_heap set_locals set_classes set_CONFIGS
       trace heap locals classes CONFIGS initial].

(** Replace the reads whose outcome is known. *)
Ltac rewrite_resolved :=
  repeat match goal with
         | H : resolve ?e ?p ?n ?d = inr _ |- context [resolve ?e ?p ?n ?d] =>
             rewrite H
         end.

(** Evaluate the module under [Hload : loadable environ]: the tactic names
    the values read and leaves the final state [st] with
    [Hrun : run environ = Returned tt st]. *)
Ltac module_loaded environ Hload :=
  let Hreq := fresh "Hreq" in
  let Hb := fresh "Hb" in
  let Hs := fresh "Hs" in
  let He := fresh "He" in
  destruct Hload as (Hreq & Hb & Hs & He);
  unfold required in Hreq;
  apply Forall_cons in Hreq as [[flask Hflask] Hreq];
  apply Forall_cons in Hreq as [[secret Hsecret] Hreq];
  apply Forall_cons in Hreq as [[api Hapi] Hreq];
  apply Forall_cons in Hreq as [[lib_id Hlib_id] Hreq];
  apply Forall_cons in Hreq as [[lib_type Hlib_type] _];
  repeat match goal with
         | H : environ !! ?n = Some ?v |- _ =>
             apply (fun E => resolve_set environ Some n None v v E eq_refl) in H
         end;
  match goal with
  | Hf : resolve environ Some "FLASK_APP" None = inr ?f |- _ =>
      destruct (resolve_str environ "KERKO_DATA_DIR"
                  (path_str (joinpath (joinpath (absolute (parent (Path f))) "data") "kerko")))
        as [data_dir Hdata_dir]
  end;
  destruct (resolve_parses environ _ "ASSETS_DEBUG" true Hb) as [dev_assets Hdev_assets];
  destruct (resolve_parses environ _ "KERKO_ZOTERO_START" 0%Z Hs) as [zstart Hzstart];
  destruct (resolve_parses environ _ "KERKO_ZOTERO_END" 0%Z He) as [zend Hzend];
  destruct (resolve_str environ "LOGGING_LEVEL" "DEBUG") as [dev_level Hdev_level];
  destruct (resolve_parses environ _ "ASSETS_DEBUG" false Hb) as [prod_assets Hprod_assets];
  destruct (resolve_str environ "LOGGING_LEVEL" "WARNING") as [prod_level Hprod_level];
  let Hrun := fresh "Hrun" in
  eassert (Hrun : run environ = Returned tt _);
  [ unfold_module; rewrite_resolved; cbv beta iota; rewrite_resolved;
    cbv beta iota; reflexivity
  | match type of Hrun with
    | _ = Returned tt ?s => set (st := s) in Hrun
    end ].

(** Split on a required variable: when it is set, go on with its value; when
    it is not, the evaluation stops at its read, which [Hfail] turns into the
    goal. *)
Ltac required_or_fails environ Hfail name :=
  let E := fresh "E" in
  destruct (environ !! name) eqn:E;
  [ apply (fun H => resolve_set environ Some name None _ _ H eq_refl) in E
  | eapply (Hfail name);
    [ simpl; tauto
    | exact E
    | unfold_module; rewrite_resolved; cbv beta iota;
      rewrite (resolve_missing environ Some name E); reflexivity
    | cbn; repeat constructor; eexists; (split; [reflexivity | simpl; tauto])
    | reflexivity
    | reflexivity
    | reflexivity ] ].

(** Split on the outcome of a read: an error ends the evaluation. *)
Ltac read_returns environ parse name default :=
  let E := fresh "E" in
  destruct (resolve environ parse name default) eqn:E;
  [ cbv beta iota; intros; discriminate | cbv beta iota ].

Section Loading.

Context {X : Externals}.
Variable environ : gmap string string.

(** The module loads exactly under the environments that are [loadable]. *)
Lemma run_returns_loadable st : run environ = Returned tt st -> loadable environ.
Proof.
  unfold_module.
  read_returns environ (@Some string) "FLASK_APP" (@None string).
  read_returns environ (@Some string) "SECRET_KEY" (@None string).
  read_returns environ (@Some string) "KERKO_ZOTERO_API_KEY" (@None string).
  read_returns environ (@Some string) "KERKO_ZOTERO_LIBRARY_ID" (@None string).
  read_returns environ (@Some string) "KERKO_ZOTERO_LIBRARY_TYPE" (@None string).
  match goal with
  | |- context [resolve environ Some "KERKO_DATA_DIR" ?d] =>
      read_returns environ (@Some string) "KERKO_DATA_DIR" d
  end.
  read_returns environ parse_bool "ASSETS_DEBUG" (Some true).
  read_returns environ parse_int "KERKO_ZOTERO_START" (Some 0%Z).
  read_returns environ parse_int "KERKO_ZOTERO_END" (Some 0%Z).
  intros _.
  repeat match goal with
         | H : resolve environ Some _ None = inr _ |- _ => apply resolve_required in H
         end.
  split.
  { do 5 (constructor; [eexists; eassumption |]). constructor. }
  repeat split; eapply resolve_returned; eassumption.
Qed.

Lemma loadable_run_returns : loadable environ -> exists st, run environ = Returned tt st.
Proof. intros Hload. module_loaded environ Hload. eauto. Qed.

End Loading.


(** ** The scan with any [count] *)

Module ReCount.
Import Re ReFacts.




End ReCount.

(** ** More facts about the two substitutions *)

Section Wrapped.
Import Re ReFacts ReCount.

Lemma endswith_close_nl_span d :
  endswith ("</span>" +:+ nl) ("<span>" +:+ d) = endswith ("</span>" +:+ nl) d.
Proof.
  destruct d as [|c1 [|c2 [|c3 [|c4 [|c5 [|c6 [|c7 [|c8 d]]]]]]]];
    try reflexivity. apply endswith_app_long; simpl; lia.
Qed.

Lemma close_hit_span d : close_hit ("<span>" +:+ d) = close_hit d.
Proof. unfold close_hit. now rewrite endswith_close_span, endswith_close_nl_span. Qed.

Lemma close_spec_span d : close_spec ("<span>" +:+ d) = "<span>" +:+ close_spec d.
Proof.
  destruct (close_hit d) eqn:E.
  - destruct (close_hit_split _ E) as (m & t & Ht & ->).
    rewrite (close_spec_hit m t Ht).
    rewrite <- (append_assoc "<span>" m ("</span>" +:+ t)).
    rewrite <- (append_assoc "<span>" m ("</div>" +:+ t)).
    apply (close_spec_hit ("<span>" +:+ m) t Ht).
  - rewrite (close_spec_miss d E). apply close_spec_miss.
    now rewrite close_hit_span.
Qed.

(** Whether the closing substitution fires on the output of the opening one
    is decided by the input of the opening one. *)
Lemma close_hit_open_spec s : close_hit (open_spec s) = close_hit s.
Proof.
  unfold open_spec. destruct (startswith "<span>" s) eqn:E; [| reflexivity].
  apply startswith_split in E. rewrite E at 2.
  change (String.length "<span>") with 6%nat.
  now rewrite close_hit_div, close_hit_span.
Qed.

Lemma open_close_commute s : open_spec (close_spec s) = close_spec (open_spec s).
Proof.
  destruct (startswith "<span>" s) eqn:E.
  - pose proof (startswith_split _ _ E) as Hs.
    change (String.length "<span>") with 6%nat in Hs.
    unfold open_spec at 2. rewrite E, close_spec_div.
    rewrite Hs at 1. rewrite close_spec_span. reflexivity.
  - unfold open_spec at 2. rewrite E.
    unfold open_spec. now rewrite (close_spec_not_open s E).
Qed.

Lemma wrapped_split s :
  startswith "<span>" s = true -> endswith "</span>" s = true ->
  exists m, s = "<span>" +:+ m +:+ "</span>".
Proof.
  intros Hopen Hclose.
  pose proof (startswith_split _ _ Hopen) as Hs.
  change (String.length "<span>") with 6%nat in Hs.
  rewrite Hs, endswith_close_span in Hclose.
  apply endswith_split in Hclose.
  exists (take (String.length (drop 6 s) - String.length "</span>") (drop 6 s)).
  now rewrite <- Hclose.
Qed.

Lemma rewrite_wrapped m :
  preview_rewrite ("<span>" +:+ m +:+ "</span>") = Some (div_open +:+ m +:+ "</div>").
Proof.
  rewrite preview_rewrite_spec. f_equal.
  change (open_spec ("<span>" +:+ m +:+ "</span>")) with (div_open +:+ m +:+ "</span>").
  rewrite close_spec_div. f_equal.
  apply (close_spec_hit m EmptyString). now left.
Qed.

Lemma length_close_spec s :
  (String.length (close_spec s) + (if close_hit s then 1 else 0) = String.length s)%nat.
Proof.
  destruct (close_hit s) eqn:E.
  - destruct (close_hit_split _ E) as (m & t & Ht & ->).
    rewrite (close_spec_hit m t Ht), !length_append. simpl. lia.
  - rewrite (close_spec_miss s E). lia.
Qed.

Lemma length_open_spec s :
  String.length (open_spec s) =
  (String.length s + (if startswith "<span>" s then 17 else 0))%nat.
Proof.
  unfold open_spec. destruct (startswith "<span>" s) eqn:E; [| lia].
  apply startswith_split in E. rewrite E at 2.
  rewrite !length_append. simpl. lia.
Qed.



End Wrapped.

Section Locality.

Lemma startswith_app_long t a b :
  (String.length t <= String.length a)%nat -> startswith t (a +:+ b) = startswith t a.
Proof.
  revert a; induction t as [|c t IH]; intros a H; [reflexivity |].
  destruct a as [|d a]; simpl in H; [lia |].
  cbn [String.append startswith]. destruct (Ascii.eqb c d); [| reflexivity].
  apply IH. lia.
Qed.

Lemma open_spec_app_long a b :
  (6 <= String.length a)%nat -> open_spec (a +:+ b) = open_spec a +:+ b.
Proof.
  intros H. unfold open_spec. rewrite startswith_app_long by exact H.
  destruct (startswith "<span>" a) eqn:E; [| reflexivity].
  apply startswith_split in E. rewrite E at 1.
  rewrite !append_assoc. reflexivity.
Qed.

Lemma close_hit_app_long a b :
  (8 <= String.length b)%nat -> close_hit (a +:+ b) = close_hit b.
Proof.
  intros H. unfold close_hit.
  rewrite !endswith_app_long by (simpl; lia). reflexivity.
Qed.

Lemma close_spec_app_long a b :
  (8 <= String.length b)%nat -> close_spec (a +:+ b) = a +:+ close_spec b.
Proof.
  intros H. destruct (close_hit b) eqn:E.
  - destruct (close_hit_split _ E) as (m & t & Ht & ->).
    rewrite (close_spec_hit m t Ht).
    rewrite <- (append_assoc a m ("</span>" +:+ t)).
    rewrite <- (append_assoc a m ("</div>" +:+ t)).
    apply (close_spec_hit (a +:+ m) t Ht).
  - rewrite (close_spec_miss b E). apply close_spec_miss.
    now rewrite close_hit_app_long.
Qed.

End Locality.


(** ** Facts about the outcome of an import *)

Section Outcome.

Context {X : Externals}.
Variable environ : gmap string string.

Lemma resolve_typed {A} (parse : string -> option A) name d :
  resolve environ parse name (Some d) =
  if unparseable environ parse name
  then inl (EnvValidationError name)
  else inr (value_of environ parse name d).
Proof.
  unfold resolve, unparseable, value_of.
  destruct (environ !! name) as [raw|]; [| reflexivity].
  now destruct (parse raw).
Qed.

Lemma resolve_string name d :
  resolve environ Some name (Some d) = inr (value_of environ Some name d).
Proof. unfold resolve, value_of. now destruct (environ !! name). Qed.

Lemma value_of_env_value {A} (parse : string -> option A) name d :
  unparseable environ parse name = false ->
  env_value environ parse name d (value_of environ parse name d).
Proof.
  unfold unparseable, env_value, value_of.
  destruct (environ !! name) as [raw|]; [| reflexivity].
  destruct (parse raw); [reflexivity | discriminate].
Qed.

End Outcome.

(** Split on a required variable, with the goal stated by [first_missing]. *)
Ltac required_or_raises environ name :=
  let E := fresh "E" in
  destruct (environ !! name) eqn:E; cbv beta iota;
  [ apply (fun H => resolve_set environ Some name None _ _ H eq_refl) in E
  | eexists; unfold_module; rewrite_resolved; cbv beta iota;
    rewrite (resolve_missing environ Some name E); reflexivity ].

Ltac unfold_outcome :=
  unfold import_error, first_missing, required, is_unset; cbn [List.find].


Section MapFacts.

Context {V : Type}.
Implicit Types m : gmap string V.

Lemma lookup_insert_congr m1 m2 k v j :
  m1 !! j = m2 !! j -> <[k := v]> m1 !! j = <[k := v]> m2 !! j.
Proof.
  intros H. destruct (decide (k = j)) as [-> | Hne].
  - now rewrite !lookup_insert_eq.
  - now rewrite !lookup_insert_ne.
Qed.

Lemma lookup_insert_skip m1 m2 k v1 v2 j :
  k <> j -> m1 !! j = m2 !! j -> <[k := v1]> m1 !! j = <[k := v2]> m2 !! j.
Proof. intros Hne H. now rewrite !lookup_insert_ne. Qed.

End MapFacts.

(** Two chains of bindings that differ only in the values of names that the
    attribute [j] is not: [Hout] says that [j] is none of these names. *)
Ltac same_lookup Hout :=
  repeat first
    [ apply lookup_insert_congr
    | apply lookup_insert_skip; [intros <-; apply Hout; simpl; tauto |] ];
  reflexivity.


Section Agreement.

Context {X : Externals}.
Variables environ environ' : gmap string string.

Lemma resolve_ext {A} (parse : string -> option A) name d :
  environ !! name = environ' !! name ->
  resolve environ parse name d = resolve environ' parse name d.
Proof. unfold resolve. now intros ->. Qed.

End Agreement.

(** * The citation rewriter *)

Section RewriterClaims.

(** C1. A citation that begins with [<span>] and ends with [</span>] is
    rewritten to the opening [<div class="csl-entry">], the text that stood
    between the two tags, unchanged, and the closing [</div>]. *)
Theorem C1_wrapped_citation_is_rewrapped (s : string) :
  startswith "<span>" s = true ->
  endswith "</span>" s = true ->
  preview_rewrite s =
  Some (div_open +:+ slice 6 (String.length s - 7) s +:+ "</div>").
Proof.
  intros Hopen Hclose.
  pose proof (startswith_split _ _ Hopen) as Hs.
  change (String.length "<span>") with 6%nat in Hs.
  set (d := drop 6 s) in *.
  assert (Hd : endswith "</span>" d = true).
  { rewrite <- endswith_close_span, <- Hs. exact Hclose. }
  pose proof (endswith_split _ _ Hd) as Hm.
  change (String.length "</span>") with 7%nat in Hm.
  assert (Hlen : String.length s = (6 + String.length d)%nat).
  { rewrite Hs at 1. now rewrite length_append. }
  unfold slice. fold d.
  replace (String.length s - 7 - 6)%nat with (String.length d - 7)%nat by lia.
  set (m := take (String.length d - 7) d) in *.
  rewrite preview_rewrite_spec. f_equal.
  unfold open_spec. rewrite Hopen. fold d.
  rewrite close_spec_div. f_equal.
  rewrite Hm. apply (close_spec_hit m EmptyString). now left.
Qed.

Lemma C1_witness :
  startswith "<span>" "<span>Hassler, 2020</span>" = true /\
  endswith "</span>" "<span>Hassler, 2020</span>" = true /\
  preview_rewrite "<span>Hassler, 2020</span>" =
  Some (div_open +:+ "Hassler, 2020" +:+ "</div>").
Proof.
  split; [reflexivity |]. split; [reflexivity |].
  exact (C1_wrapped_citation_is_rewrapped "<span>Hassler, 2020</span>" eq_refl eq_refl).
Defined.

(** C2, as it is stated, fails on the closing side: a text that ends with
    [</span>] and a line feed does not end with [</span>], and still the
    closing substitution, and with it the rewriter, changes it. *)
Lemma C2_counterexample :
  endswith "</span>" ("x</span>" +:+ nl) = false /\
  startswith "<span>" ("x</span>" +:+ nl) = false /\
  preview_close ("x</span>" +:+ nl) = Some ("x</div>" +:+ nl) /\
  preview_close ("x</span>" +:+ nl) <> Some ("x</span>" +:+ nl) /\
  preview_rewrite ("x</span>" +:+ nl) <> Some ("x</span>" +:+ nl).
Proof. repeat split; try reflexivity; discriminate. Qed.

(** C2, amended.  The opening substitution returns a text that does not start
    with [<span>] as it is; the closing substitution returns a text that ends
    neither with [</span>] nor with [</span>] and one line feed as it is; the
    rewriter is the identity on the texts that meet both conditions; and
    rewriting twice gives what rewriting once gives. *)
Theorem C2_unmatched_boundaries_and_idempotence (s : string) :
  (startswith "<span>" s = false -> preview_open s = Some s) /\
  (endswith "</span>" s = false -> endswith ("</span>" +:+ nl) s = false ->
   preview_close s = Some s) /\
  (startswith "<span>" s = false ->
   endswith "</span>" s = false -> endswith ("</span>" +:+ nl) s = false ->
   preview_rewrite s = Some s) /\
  preview_rewrite s ≫= preview_rewrite = preview_rewrite s.
Proof.
  assert (Hclose : endswith "</span>" s = false ->
                   endswith ("</span>" +:+ nl) s = false ->
                   preview_close s = Some s).
  { intros H1 H2. apply preview_close_miss. unfold close_hit. now rewrite H1, H2. }
  assert (Hopen : startswith "<span>" s = false -> preview_open s = Some s).
  { intros H. rewrite preview_open_eq. unfold open_spec. now rewrite H. }
  repeat split; try assumption.
  - intros H0 H1 H2. rewrite preview_rewrite_eq, (Hopen H0). now apply Hclose.
  - rewrite preview_rewrite_spec. cbn [mbind option_bind].
    rewrite preview_rewrite_spec. f_equal. apply rewrite_idem.
Qed.

Lemma C2_witness :
  preview_open "Hassler, 2020" = Some "Hassler, 2020" /\
  preview_close "Hassler, 2020" = Some "Hassler, 2020" /\
  preview_rewrite "Hassler, 2020" = Some "Hassler, 2020" /\
  preview_rewrite "<span>a</span>" ≫= preview_rewrite = preview_rewrite "<span>a</span>".
Proof.
  destruct (C2_unmatched_boundaries_and_idempotence "Hassler, 2020")
    as (H1 & H2 & H3 & _).
  destruct (C2_unmatched_boundaries_and_idempotence "<span>a</span>")
    as (_ & _ & _ & H4).
  split; [exact (H1 eq_refl) |].
  split; [exact (H2 eq_refl eq_refl) |].
  split; [exact (H3 eq_refl eq_refl eq_refl) | exact H4].
Defined.

(** C3, as it is stated, fails: the output for [</span>] and a line feed is
    not of the stated shape, in which a replaced closing tag is the end of the
    text. *)
Lemma C3_counterexample :
  preview_rewrite ("</span>" +:+ nl) = Some ("</div>" +:+ nl) /\
  ~ rewritten_strictly ("</span>" +:+ nl) ("</div>" +:+ nl).
Proof.
  split; [reflexivity |].
  intros (o & m & c & o' & c' & Hs & Hr & Ho & Hc).
  destruct Ho as [[-> ->] | [-> ->]]; [| simpl in Hs; discriminate].
  destruct Hc as [[-> ->] | [-> ->]]; simpl in Hs, Hr.
  - rewrite append_nil_r in Hs, Hr. congruence.
  - assert (Hm : String.length m = 1%nat).
    { apply (f_equal String.length) in Hs. rewrite length_append in Hs.
      simpl in Hs. lia. }
    destruct m as [|a [|b m]]; try discriminate Hm.
    simpl in Hs. discriminate Hs.
Qed.

(** C3, amended.  The rewriter replaces at most one opening tag, which is
    the start of the text, and at most one closing tag, which is the end of
    the text or is followed by exactly one line feed that is the end of the
    text; every other character is in the output, unchanged and in order. *)
Theorem C3_only_the_boundary_tags_change (s : string) :
  exists r, preview_rewrite s = Some r /\ rewritten s r.
Proof.
  exists (close_spec (open_spec s)). split; [apply preview_rewrite_spec |].
  unfold rewritten, open_spec.
  destruct (startswith "<span>" s) eqn:Hopen.
  - pose proof (startswith_split _ _ Hopen) as Hs.
    change (String.length "<span>") with 6%nat in Hs.
    set (d := drop 6 s) in *. rewrite close_spec_div.
    destruct (close_hit d) eqn:Hd.
    + destruct (close_hit_split _ Hd) as (m & t & Ht & Hm).
      exists "<span>", m, "</span>", t, div_open, "</div>".
      rewrite Hs, Hm, (close_spec_hit m t Ht).
      repeat split; try (right; now split).
      destruct Ht as [-> | ->]; [now left | right; now split].
    + exists "<span>", d, EmptyString, EmptyString, div_open, EmptyString.
      rewrite (close_spec_miss d Hd), !append_nil_r.
      repeat split; try assumption; try (now left). right; now split.
  - destruct (close_hit s) eqn:Hd.
    + destruct (close_hit_split _ Hd) as (m & t & Ht & Hm).
      exists EmptyString, m, "</span>", t, EmptyString, "</div>".
      rewrite Hm, (close_spec_hit m t Ht).
      repeat split; try (left; now split); try (right; now split).
      destruct Ht as [-> | ->]; [now left | right; now split].
    + exists EmptyString, s, EmptyString, EmptyString, EmptyString, EmptyString.
      rewrite (close_spec_miss s Hd), !append_nil_r.
      repeat split; now left.
Qed.

(** C4. The rewriter returns a text for every text, and so does each of its
    two substitutions; nothing is rejected.  The opening substitution
    replaces [<span>] at the start and returns a text without it as it is.
    The closing substitution, on the output of the opening one as on any
    text, replaces the tag that ends the text, or that one line feed
    follows at the end, and keeps what stands before and behind it; it
    returns a text without such a tag as it is.  So a malformed text is
    passed through with the boundary that matches rewritten, and with no
    other change. *)
Theorem C4_rewriter_is_total (s : string) :
  exists r1 r c,
    preview_open s = Some r1 /\ preview_close r1 = Some r /\
    preview_rewrite s = Some r /\ preview_close s = Some c /\
    r1 = (if startswith "<span>" s then div_open +:+ drop 6 s else s) /\
    (if close_hit r1 then closing_replaced r1 r /\ r <> r1 else r = r1) /\
    (if close_hit s then closing_replaced s c /\ c <> s else c = s).
Proof.
  exists (open_spec s), (close_spec (open_spec s)), (close_spec s).
  split; [apply preview_open_eq |].
  split; [apply preview_close_eq |].
  split; [apply preview_rewrite_spec |].
  split; [apply preview_close_eq |].
  split; [reflexivity |].
  split; apply close_spec_cases.
Qed.

(** C10. The closing substitution also fires when [</span>] is followed by
    one line feed: a text [s] followed by [</span>] and a line feed is
    rewritten to [s] with its opening tag rewritten, [</div>] and the line
    feed; the tag replaced is not the end of the text. *)
Theorem C10_closing_tag_before_final_newline (s : string) :
  exists r,
    preview_open s = Some r /\
    preview_rewrite (s +:+ "</span>" +:+ nl) = Some (r +:+ "</div>" +:+ nl) /\
    endswith "</span>" (s +:+ "</span>" +:+ nl) = false.
Proof.
  exists (open_spec s). split; [apply preview_open_eq |]. split.
  - rewrite preview_rewrite_spec. f_equal.
    change (s +:+ "</span>" +:+ nl)
      with (s +:+ String "<" (String "/" ("span>" +:+ nl))).
    rewrite open_spec_app.
    apply (close_spec_hit (open_spec s) nl). now right.
  - destruct (endswith "</span>" (s +:+ "</span>" +:+ nl)) eqn:E; [| reflexivity].
    exfalso. apply endswith_split in E. revert E.
    change (String.length "</span>") with 7%nat.
    set (p := take _ _).
    change (s +:+ "</span>" +:+ nl) with (s +:+ "</span>" +:+ nl +:+ EmptyString).
    change (p +:+ "</span>") with (p +:+ "</span" +:+ ">").
    rewrite <- (append_assoc s), <- (append_assoc p), append_nil_r.
    now apply tail_differs.
Qed.

End RewriterClaims.

(** * The configuration classes *)

Section ConfigClaims.

Context {X : Externals}.
Variable environ : gmap string string.

(** C5. When the module loads, [KERKO_DATA_DIR] is the value of its variable
    or, by default, the application directory joined with [data] and
    [kerko]; in the development configuration [ASSETS_DEBUG] defaults to
    [True], [KERKO_ZOTERO_START] and [KERKO_ZOTERO_END] to [0] and
    [LOGGING_LEVEL] to [DEBUG]; in the production configuration
    [ASSETS_DEBUG] defaults to [False] and [LOGGING_LEVEL] to [WARNING]; a
    variable that is set gives the attribute its parsed value. *)
Theorem C5_defaults_and_parsed_values :
  loadable environ ->
  exists st,
    run environ = Returned tt st /\
    (forall flask, environ !! "FLASK_APP" = Some flask ->
     Forall (fun cls =>
               exposes environ st cls "KERKO_DATA_DIR" VStr Some "KERKO_DATA_DIR"
                 (path_str (joinpath (joinpath (absolute (parent (Path flask))) "data")
                              "kerko")))
            ["Config"; "DevelopmentConfig"; "ProductionConfig"]) /\
    exposes environ st "DevelopmentConfig" "ASSETS_DEBUG" VBool parse_bool
      "ASSETS_DEBUG" true /\
    exposes environ st "DevelopmentConfig" "KERKO_ZOTERO_START" VInt parse_int
      "KERKO_ZOTERO_START" 0%Z /\
    exposes environ st "DevelopmentConfig" "KERKO_ZOTERO_END" VInt parse_int
      "KERKO_ZOTERO_END" 0%Z /\
    exposes environ st "DevelopmentConfig" "LOGGING_LEVEL" VStr Some
      "LOGGING_LEVEL" "DEBUG" /\
    exposes environ st "ProductionConfig" "ASSETS_DEBUG" VBool parse_bool
      "ASSETS_DEBUG" false /\
    exposes environ st "ProductionConfig" "LOGGING_LEVEL" VStr Some
      "LOGGING_LEVEL" "WARNING".
Proof.
  intros Hload. module_loaded environ Hload.
  exists st. split; [exact Hrun |].
  split.
  { intros flask' Hf. apply resolve_required in Hflask.
    assert (flask' = flask) as -> by congruence.
    repeat constructor; exists data_dir;
      (split; [vm_compute; reflexivity | now apply resolve_value]). }
  repeat split;
    eexists; (split; [vm_compute; reflexivity | now apply resolve_value]).
Qed.

(** C6. If one of the five required variables is not set, loading the
    module raises the error of the parsing library for a required variable
    that is not set, while the body of [Config] is evaluated: up to there
    the module has only read required variables; no composer exists, no
    class has been created and [CONFIGS] is not bound. *)
Theorem C6_missing_required_variable_fails_first (name : string) :
  In name required ->
  environ !! name = None ->
  exists missing st,
    run environ = Raised (EnvError missing) st /\
    In missing required /\ environ !! missing = None /\
    Forall (fun e => exists n, e = EnvRead n TStr /\ In n required) (trace st) /\
    heap st = [] /\ classes st = ∅ /\ CONFIGS st = None.
Proof.
  intros Hin Hnone.
  assert (Hfail : forall missing st,
            In missing required -> environ !! missing = None ->
            run environ = Raised (EnvError missing) st ->
            Forall (fun e => exists n, e = EnvRead n TStr /\ In n required) (trace st) ->
            heap st = [] -> classes st = ∅ -> CONFIGS st = None ->
            exists missing st,
              run environ = Raised (EnvError missing) st /\
              In missing required /\ environ !! missing = None /\
              Forall (fun e => exists n, e = EnvRead n TStr /\ In n required) (trace st) /\
              heap st = [] /\ classes st = ∅ /\ CONFIGS st = None).
  { intros missing st. exists missing, st. tauto. }
  required_or_fails environ Hfail "FLASK_APP".
  required_or_fails environ Hfail "SECRET_KEY".
  required_or_fails environ Hfail "KERKO_ZOTERO_API_KEY".
  required_or_fails environ Hfail "KERKO_ZOTERO_LIBRARY_ID".
  required_or_fails environ Hfail "KERKO_ZOTERO_LIBRARY_TYPE".
  exfalso.
  repeat match goal with
         | H : resolve environ Some _ None = inr _ |- _ => apply resolve_required in H
         end.
  simpl in Hin. intuition (subst; congruence).
Qed.

(** C7, amended.  When the module loads, each of the ten variables has been
    read with the parser of its type, and with no other: [ASSETS_DEBUG] as a
    boolean, [KERKO_ZOTERO_START] and [KERKO_ZOTERO_END] as integers, the
    seven others as strings.  The development configuration consumes all
    ten, through its own body and that of [Config].  The production
    configuration consumes all of them except [KERKO_ZOTERO_START] and
    [KERKO_ZOTERO_END], which it neither reads nor has as attributes.  An
    attribute that a configuration has under the name of one of the
    variables holds a value of that type, and each configuration has such an
    attribute for every variable it consumes but [FLASK_APP]. *)
Theorem C7_variables_are_read_with_their_type :
  loadable environ ->
  exists st,
    run environ = Returned tt st /\
    (forall name ty, In (name, ty) (reads st) <-> In (name, ty) var_types) /\
    CONFIGS st = Some CONFIGS_dict /\
    (forall cfg cls name ty v,
       CONFIGS_dict !! cfg = Some cls ->
       In (name, ty) var_types ->
       getattr st cls name = Some v -> has_type v ty) /\
    reads_of st "Config" = firstn 6 var_types /\
    reads_of st "DevelopmentConfig" = skipn 6 var_types /\
    reads_of st "ProductionConfig" = [("ASSETS_DEBUG", TBool); ("LOGGING_LEVEL", TStr)] /\
    consumed st "DevelopmentConfig" = var_types /\
    consumed st "ProductionConfig" = production_var_types /\
    Forall (fun p => exists v, getattr st "DevelopmentConfig" (fst p) = Some v /\
                               has_type v (snd p))
           (tl var_types) /\
    Forall (fun p => exists v, getattr st "ProductionConfig" (fst p) = Some v /\
                               has_type v (snd p))
           (tl production_var_types) /\
    Forall (fun name => getattr st "ProductionConfig" name = None)
           ["KERKO_ZOTERO_START"; "KERKO_ZOTERO_END"; "FLASK_APP"] /\
    getattr st "DevelopmentConfig" "FLASK_APP" = None.
Proof.
  intros Hload. module_loaded environ Hload.
  exists st. split; [exact Hrun |].
  split.
  { intros name ty. change (reads st) with
      [("FLASK_APP", TStr); ("SECRET_KEY", TStr); ("KERKO_ZOTERO_API_KEY", TStr);
       ("KERKO_ZOTERO_LIBRARY_ID", TStr); ("KERKO_ZOTERO_LIBRARY_TYPE", TStr);
       ("KERKO_DATA_DIR", TStr); ("ASSETS_DEBUG", TBool);
       ("KERKO_ZOTERO_START", TInt); ("KERKO_ZOTERO_END", TInt);
       ("LOGGING_LEVEL", TStr); ("ASSETS_DEBUG", TBool); ("LOGGING_LEVEL", TStr)].
    unfold var_types. simpl. tauto. }
  split; [reflexivity |].
  split.
  { intros cfg cls name ty v Hcfg Hin.
    assert (Hcls : cls = "DevelopmentConfig" \/ cls = "ProductionConfig").
    { unfold CONFIGS_dict in Hcfg.
      apply lookup_insert_Some in Hcfg as [[_ <-] | [_ Hcfg]]; [now left |].
      apply lookup_insert_Some in Hcfg as [[_ <-] | [_ Hcfg]]; [now right |].
      now rewrite lookup_empty in Hcfg. }
    unfold var_types in Hin. simpl in Hin.
    destruct Hcls as [-> | ->];
      repeat (destruct Hin as [Hin | Hin]; [injection Hin as <- <- |]);
      try contradiction;
      vm_compute; intros H; try discriminate H; injection H as <-; exact I. }
  split; [vm_compute; reflexivity |]. split; [vm_compute; reflexivity |].
  split; [vm_compute; reflexivity |].
  split; [vm_compute; reflexivity |]. split; [vm_compute; reflexivity |].
  split.
  { cbn [tl var_types].
    do 9 (constructor; [eexists; split; [vm_compute; reflexivity | exact I] |]).
    constructor. }
  split.
  { change (tl production_var_types) with
      [("SECRET_KEY", TStr); ("KERKO_ZOTERO_API_KEY", TStr);
       ("KERKO_ZOTERO_LIBRARY_ID", TStr); ("KERKO_ZOTERO_LIBRARY_TYPE", TStr);
       ("KERKO_DATA_DIR", TStr); ("ASSETS_DEBUG", TBool); ("LOGGING_LEVEL", TStr)].
    do 7 (constructor; [eexists; split; [vm_compute; reflexivity | exact I] |]).
    constructor. }
  split.
  { do 3 (constructor; [vm_compute; reflexivity |]). constructor. }
  vm_compute; reflexivity.
Qed.

(** C8. When the module loads, the keys it registers with the composer are
    pairwise distinct in each registry: [data] and [preview] for the fields,
    [facet_proposal], [facet_theme] and [facet_location] for the facets, and
    in the end each key designates the descriptor registered under it.  Once
    the class [Config] is created, which ends the registrations, every
    statement that the module still evaluates leaves the composers and the
    class [Config] as they are, and leaves each subclass as it is from its
    creation on. *)
Theorem C8_registered_keys_are_distinct_and_kept :
  loadable environ ->
  exists st1 st2 st3 st l c,
    class_def "Config" None (Config_body environ) initial = Returned tt st1 /\
    class_def "DevelopmentConfig" (Some "Config") (DevelopmentConfig_body environ) st1
      = Returned tt st2 /\
    class_def "ProductionConfig" (Some "Config") (ProductionConfig_body environ) st2
      = Returned tt st3 /\
    assign_CONFIGS CONFIGS_dict st3 = Returned tt st /\
    run environ = Returned tt st /\
    getattr st "Config" "KERKO_COMPOSER" = Some (VRef l) /\
    heap st !! l = Some c /\
    added_fields l st = ["data"; "preview"] /\
    NoDup (added_fields l st) /\
    added_facets l st = ["facet_proposal"; "facet_theme"; "facet_location"] /\
    NoDup (added_facets l st) /\
    fields c !! "data" = Some data_field /\
    fields c !! "preview" = Some preview_field /\
    facets c !! "facet_proposal" = Some proposal_facet /\
    facets c !! "facet_theme" = Some theme_facet /\
    facets c !! "facet_location" = Some location_facet /\
    Forall (fun s => heap s = heap st1 /\
                     classes s !! "Config" = classes st1 !! "Config")
           [st2; st3; st] /\
    Forall (fun s => classes s !! "DevelopmentConfig" =
                     classes st2 !! "DevelopmentConfig")
           [st3; st] /\
    classes st !! "ProductionConfig" = classes st3 !! "ProductionConfig" /\
    (forall attr, getattr st "Config" attr = getattr st1 "Config" attr).
Proof.
  intros Hload. module_loaded environ Hload.
  eexists _, _, _, st, O, _.
  split.
  { unfold_module. rewrite_resolved. cbv beta iota. rewrite_resolved.
    cbv beta iota. reflexivity. }
  split.
  { unfold_module. rewrite_resolved. cbv beta iota. reflexivity. }
  split.
  { unfold_module. rewrite_resolved. cbv beta iota. reflexivity. }
  split; [reflexivity |].
  split; [exact Hrun |].
  split; [vm_compute; reflexivity |].
  split; [simpl; reflexivity |].
  split; [reflexivity |].
  split. { change (added_fields 0 st) with ["data"; "preview"].
           apply (bool_decide_unpack _); vm_compute; reflexivity. }
  split; [reflexivity |].
  split. { change (added_facets 0 st)
             with ["facet_proposal"; "facet_theme"; "facet_location"].
           apply (bool_decide_unpack _); vm_compute; reflexivity. }
  cbv [fields facets Composer_add_facet Composer_add_field].
  cbn [field_key facet_key data_field preview_field proposal_facet theme_facet
       location_facet].
  split; [rewrite lookup_insert_ne by done; apply lookup_insert_eq |].
  split; [apply lookup_insert_eq |].
  split; [rewrite !lookup_insert_ne by done; apply lookup_insert_eq |].
  split; [rewrite lookup_insert_ne by done; apply lookup_insert_eq |].
  split; [apply lookup_insert_eq |].
  assert (Hne : forall A (a : A) (m : gmap string A) i j,
            i <> j -> <[i := a]> m !! j = m !! j).
  { intros. now apply lookup_insert_ne. }
  split.
  { do 3 (constructor;
            [cbv beta; cbn [heap classes st]; split; [reflexivity |];
             rewrite ?Hne by done; reflexivity |]).
    constructor. }
  split.
  { do 2 (constructor;
            [cbv beta; cbn [classes st]; rewrite ?Hne by done; reflexivity |]).
    constructor. }
  split; [reflexivity |].
  intros attr. unfold getattr.
  replace (size (classes st)) with 3%nat by (vm_compute; reflexivity).
  erewrite (getattr_from_root 2 (classes st) "Config");
    [| cbn [classes st]; rewrite !Hne by done; apply lookup_insert_eq | reflexivity].
  cbn [classes].
  match goal with
  | |- _ = getattr_from (size ?m) _ _ _ =>
      replace (size m) with 1%nat by (vm_compute; reflexivity)
  end.
  symmetry. apply getattr_from_root; [apply lookup_insert_eq | reflexivity].
Qed.

(** C9. When the module loads, each of the two subclasses exposes every
    attribute of [Config] unchanged, the composer included, under every name
    that its own body does not bind; the names that the two bodies bind
    ([CONFIG], [DEBUG], [ASSETS_DEBUG], [LOGGING_LEVEL], [LIBSASS_STYLE] and
    the extras of each) are bound in the subclass and not in [Config]. *)
Theorem C9_subclasses_expose_the_base_configuration :
  loadable environ ->
  exists st,
    run environ = Returned tt st /\
    (forall attr, ~ In attr development_names ->
       getattr st "DevelopmentConfig" attr = getattr st "Config" attr) /\
    (forall attr, ~ In attr production_names ->
       getattr st "ProductionConfig" attr = getattr st "Config" attr) /\
    (forall attr, In attr development_names ->
       is_Some (getattr st "DevelopmentConfig" attr) /\
       getattr st "Config" attr = None) /\
    (forall attr, In attr production_names ->
       is_Some (getattr st "ProductionConfig" attr) /\
       getattr st "Config" attr = None) /\
    (forall attr v, getattr st "Config" attr = Some v ->
       getattr st "DevelopmentConfig" attr = Some v /\
       getattr st "ProductionConfig" attr = Some v) /\
    (exists l, Forall (fun cls => getattr st cls "KERKO_COMPOSER" = Some (VRef l))
                 ["Config"; "DevelopmentConfig"; "ProductionConfig"]).
Proof.
  intros Hload. module_loaded environ Hload.
  exists st. split; [exact Hrun |].
  eassert (Hcfg : classes st !! "Config" = Some _).
  { cbn [classes st]. rewrite !lookup_insert_ne by done. apply lookup_insert_eq. }
  assert (Hdev : forall attr, ~ In attr development_names ->
            getattr st "DevelopmentConfig" attr = getattr st "Config" attr).
  { intros attr Hout. unfold getattr.
    replace (size (classes st)) with 3%nat by (vm_compute; reflexivity).
    erewrite (getattr_from_sub 2 (classes st) "DevelopmentConfig");
      [| cbn [classes st]; rewrite lookup_insert_ne by done; apply lookup_insert_eq
       | reflexivity].
    cbn [cls_dict]. unfold development_names in Hout. simpl in Hout.
    rewrite !lookup_insert_ne by (intros <-; apply Hout; tauto).
    rewrite lookup_empty.
    now rewrite (getattr_from_root 1 _ _ _ attr Hcfg eq_refl),
                (getattr_from_root 2 _ _ _ attr Hcfg eq_refl). }
  assert (Hprod : forall attr, ~ In attr production_names ->
            getattr st "ProductionConfig" attr = getattr st "Config" attr).
  { intros attr Hout. unfold getattr.
    replace (size (classes st)) with 3%nat by (vm_compute; reflexivity).
    erewrite (getattr_from_sub 2 (classes st) "ProductionConfig");
      [| cbn [classes st]; apply lookup_insert_eq | reflexivity].
    cbn [cls_dict]. unfold production_names in Hout. simpl in Hout.
    rewrite !lookup_insert_ne by (intros <-; apply Hout; tauto).
    rewrite lookup_empty.
    now rewrite (getattr_from_root 1 _ _ _ attr Hcfg eq_refl),
                (getattr_from_root 2 _ _ _ attr Hcfg eq_refl). }
  assert (Hdev' : forall attr, In attr development_names ->
            is_Some (getattr st "DevelopmentConfig" attr) /\
            getattr st "Config" attr = None).
  { intros attr Hin. unfold development_names in Hin. simpl in Hin.
    repeat (destruct Hin as [<- | Hin];
            [split; vm_compute; [eexists |]; reflexivity |]).
    contradiction. }
  assert (Hprod' : forall attr, In attr production_names ->
            is_Some (getattr st "ProductionConfig" attr) /\
            getattr st "Config" attr = None).
  { intros attr Hin. unfold production_names in Hin. simpl in Hin.
    repeat (destruct Hin as [<- | Hin];
            [split; vm_compute; [eexists |]; reflexivity |]).
    contradiction. }
  split; [exact Hdev |]. split; [exact Hprod |].
  split; [exact Hdev' |]. split; [exact Hprod' |].
  split.
  - intros attr v Hv. split.
    + rewrite Hdev; [exact Hv |]. intros Hin.
      destruct (Hdev' attr Hin) as [_ Hnone]. congruence.
    + rewrite Hprod; [exact Hv |]. intros Hin.
      destruct (Hprod' attr Hin) as [_ Hnone]. congruence.
  - exists O.
    do 3 (constructor; [vm_compute; reflexivity |]). constructor.
Qed.

End ConfigClaims.

(** ** The claims on the sample environments *)

Lemma minimal_environ_loadable : loadable (X := sample) minimal_environ.
Proof.
  split; [| repeat split; intros raw H; vm_compute in H; discriminate H].
  repeat constructor; vm_compute; eexists; reflexivity.
Qed.

Lemma full_environ_loadable : loadable (X := sample) full_environ.
Proof.
  split; [| repeat split; intros raw H; vm_compute in H; injection H as <-;
            vm_compute; eexists; reflexivity].
  repeat constructor; vm_compute; eexists; reflexivity.
Qed.

Ltac exposed H :=
  let a := fresh "a" in
  let Hget := fresh "Hget" in
  let Hval := fresh "Hval" in
  destruct H as (a & Hget & Hval); vm_compute in Hval;
  first [ subst a | injection Hval as <- ]; exact Hget.

Lemma C5_witness :
  loadable (X := sample) minimal_environ /\
  exists st,
    run (X := sample) minimal_environ = Returned tt st /\
    getattr st "Config" "KERKO_DATA_DIR" = Some (VStr "/srv/wsgi.py/../data/kerko") /\
    getattr st "DevelopmentConfig" "ASSETS_DEBUG" = Some (VBool true) /\
    getattr st "DevelopmentConfig" "KERKO_ZOTERO_START" = Some (VInt 0) /\
    getattr st "DevelopmentConfig" "KERKO_ZOTERO_END" = Some (VInt 0) /\
    getattr st "DevelopmentConfig" "LOGGING_LEVEL" = Some (VStr "DEBUG") /\
    getattr st "ProductionConfig" "ASSETS_DEBUG" = Some (VBool false) /\
    getattr st "ProductionConfig" "LOGGING_LEVEL" = Some (VStr "WARNING").
Proof.
  split; [exact minimal_environ_loadable |].
  destruct (C5_defaults_and_parsed_values minimal_environ minimal_environ_loadable)
    as (st & Hrun & Hdir & H1 & H2 & H3 & H4 & H5 & H6).
  exists st. split; [exact Hrun |].
  split.
  { specialize (Hdir "wsgi.py" eq_refl).
    apply Forall_cons in Hdir as [Hdir _]. exposed Hdir. }
  split; [exposed H1 |]. split; [exposed H2 |]. split; [exposed H3 |].
  split; [exposed H4 |]. split; [exposed H5 | exposed H6].
Defined.

Lemma C6_witness :
  In "SECRET_KEY" required /\
  delete "SECRET_KEY" minimal_environ !! "SECRET_KEY" = None /\
  exists missing st,
    run (X := sample) (delete "SECRET_KEY" minimal_environ) =
      Raised (EnvError missing) st /\
    heap st = [] /\ classes st = ∅ /\ CONFIGS st = None.
Proof.
  assert (Hin : In "SECRET_KEY" required) by (simpl; tauto).
  assert (Hnone : delete "SECRET_KEY" minimal_environ !! "SECRET_KEY" = None)
    by reflexivity.
  split; [exact Hin |]. split; [exact Hnone |].
  destruct (C6_missing_required_variable_fails_first (X := sample)
              (delete "SECRET_KEY" minimal_environ) "SECRET_KEY" Hin Hnone)
    as (missing & st & Hrun & _ & _ & _ & Hheap & Hclasses & Hconfigs).
  exists missing, st. repeat split; assumption.
Defined.

(** C7, as it is stated, fails for the production configuration: with
    [KERKO_ZOTERO_START] set in the environment, that configuration is
    reached through [CONFIGS], the variable is one of the ten, and still
    neither the body of [ProductionConfig] nor that of its base reads it,
    and the configuration has no attribute for it. *)
Lemma C7_counterexample :
  full_environ !! "KERKO_ZOTERO_START" = Some "100" /\
  run (X := sample) full_environ =
    Returned tt (final (run (X := sample) full_environ)) /\
  CONFIGS_dict !! "production" = Some "ProductionConfig" /\
  In ("KERKO_ZOTERO_START", TInt) var_types /\
  ~ In ("KERKO_ZOTERO_START", TInt)
      (consumed (final (run (X := sample) full_environ)) "ProductionConfig") /\
  getattr (final (run (X := sample) full_environ)) "ProductionConfig"
    "KERKO_ZOTERO_START" = None.
Proof.
  split; [vm_compute; reflexivity |].
  split.
  { destruct (loadable_run_returns full_environ full_environ_loadable) as [st Hst].
    rewrite Hst. reflexivity. }
  split; [vm_compute; reflexivity |].
  split; [simpl; tauto |].
  split; [| vm_compute; reflexivity].
  assert (Hc : consumed (final (run (X := sample) full_environ)) "ProductionConfig"
               = production_var_types) by (vm_compute; reflexivity).
  rewrite Hc. unfold production_var_types, var_types. simpl. intros H.
  repeat (destruct H as [H | H]; [discriminate H |]). exact H.
Qed.

Lemma C7_witness :
  loadable (X := sample) full_environ /\
  exists st,
    run (X := sample) full_environ = Returned tt st /\
    In ("ASSETS_DEBUG", TBool) (reads st) /\
    In ("KERKO_ZOTERO_END", TInt) (reads st) /\
    ~ In ("KERKO_ZOTERO_END", TStr) (reads st) /\
    consumed st "DevelopmentConfig" = var_types /\
    consumed st "ProductionConfig" = production_var_types /\
    getattr st "ProductionConfig" "KERKO_ZOTERO_END" = None.
Proof.
  split; [exact full_environ_loadable |].
  destruct (C7_variables_are_read_with_their_type full_environ full_environ_loadable)
    as (st & Hrun & Hreads & _ & _ & _ & _ & _ & Hdev & Hprod & _ & _ & Hnone & _).
  exists st. split; [exact Hrun |].
  split; [apply Hreads; simpl; tauto |].
  split; [apply Hreads; simpl; tauto |].
  split.
  { intros H. apply Hreads in H. simpl in H.
    repeat (destruct H as [H | H]; [discriminate H |]). exact H. }
  split; [exact Hdev |]. split; [exact Hprod |].
  apply Forall_cons in Hnone as [_ Hnone].
  apply Forall_cons in Hnone as [Hnone _]. exact Hnone.
Defined.

Lemma C8_witness :
  loadable (X := sample) full_environ /\
  exists st l c,
    run (X := sample) full_environ = Returned tt st /\
    heap st !! l = Some c /\
    NoDup (added_fields l st) /\ NoDup (added_facets l st) /\
    fields c !! "preview" = Some preview_field.
Proof.
  split; [exact full_environ_loadable |].
  destruct (C8_registered_keys_are_distinct_and_kept full_environ full_environ_loadable)
    as (st1 & st2 & st3 & st & l & c & _ & _ & _ & _ & Hrun & _ & Hc & _ & Hf & _
        & Hg & _ & Hp & _).
  exists st, l, c. repeat split; assumption.
Defined.

Lemma C9_witness :
  loadable (X := sample) full_environ /\
  exists st,
    run (X := sample) full_environ = Returned tt st /\
    getattr st "ProductionConfig" "HOME_URL" = getattr st "Config" "HOME_URL" /\
    getattr st "DevelopmentConfig" "KERKO_COMPOSER" =
      getattr st "Config" "KERKO_COMPOSER".
Proof.
  split; [exact full_environ_loadable |].
  destruct (C9_subclasses_expose_the_base_configuration full_environ
              full_environ_loadable)
    as (st & Hrun & Hdev & Hprod & _).
  exists st. split; [exact Hrun |].
  split; [apply Hprod | apply Hdev]; simpl; intros H;
    repeat (destruct H as [H | H]; [discriminate H |]); exact H.
Defined.

(** * Further properties of the rewriter *)

Section RewriterExtras.


(** X2. The order of the two transformers is immaterial: the closing
    substitution followed by the opening one gives what the rewriter
    gives, and the closing substitution fires on the output of the opening
    one exactly when the input ends with [</span>], or with [</span>] and a
    line feed. *)
Theorem X2_order_is_immaterial (s : string) :
  apply_transformers (rev preview_transformers) s = preview_rewrite s /\
  exists r1 r,
    preview_open s = Some r1 /\ preview_close r1 = Some r /\
    (r <> r1 <->
     endswith "</span>" s || endswith ("</span>" +:+ nl) s = true).
Proof.
  split.
  - change (apply_transformers (rev preview_transformers) s)
      with (preview_close s ≫= preview_open).
    rewrite preview_rewrite_spec, preview_close_eq. cbn [mbind option_bind].
    rewrite preview_open_eq. f_equal. apply open_close_commute.
  - exists (open_spec s), (close_spec (open_spec s)).
    split; [apply preview_open_eq |]. split; [apply preview_close_eq |].
    fold (close_hit s). rewrite <- close_hit_open_spec.
    destruct (close_hit (open_spec s)) eqn:E.
    + split; [reflexivity | intros _ H].
      destruct (close_hit_split _ E) as (m & t & Ht & Hm).
      rewrite Hm, (close_spec_hit m t Ht) in H.
      pose proof (close_hit_rewritten m t Ht) as Hn.
      rewrite H, (close_hit_app m t Ht) in Hn. discriminate.
    + rewrite (close_spec_miss _ E). split; [congruence | discriminate].
Qed.

(** X3. The output of the rewriter has no wrapper tag left at its
    boundaries: it does not start with [<span>], and it ends neither with
    [</span>] nor with [</span>] and a line feed. *)
Theorem X3_no_boundary_tag_is_left (s : string) :
  exists r,
    preview_rewrite s = Some r /\
    startswith "<span>" r = false /\
    endswith "</span>" r = false /\
    endswith ("</span>" +:+ nl) r = false.
Proof.
  exists (close_spec (open_spec s)). split; [apply preview_rewrite_spec |].
  split; [apply close_spec_not_open, open_spec_not_open |].
  apply orb_false_iff. fold (close_hit (close_spec (open_spec s))).
  destruct (close_hit (open_spec s)) eqn:E.
  - destruct (close_hit_split _ E) as (m & t & Ht & ->).
    rewrite (close_spec_hit m t Ht). now apply close_hit_rewritten.
  - now rewrite (close_spec_miss _ E).
Qed.

(** X4. The length of the output: a replaced opening tag adds 17
    characters, a replaced closing tag takes one away, and nothing else
    changes the length. *)
Theorem X4_length_of_the_output (s : string) :
  exists r,
    preview_rewrite s = Some r /\
    (String.length r +
       (if endswith "</span>" s || endswith ("</span>" +:+ nl) s then 1 else 0) =
     String.length s + (if startswith "<span>" s then 17 else 0))%nat.
Proof.
  exists (close_spec (open_spec s)). split; [apply preview_rewrite_spec |].
  fold (close_hit s). rewrite <- close_hit_open_spec.
  rewrite length_close_spec. apply length_open_spec.
Qed.

(** X5. On wrapped citations the rewriter loses nothing: two texts that
    start with [<span>] and end with [</span>] and have the same output are
    the same text. *)
Theorem X5_injective_on_wrapped_citations (s1 s2 : string) :
  startswith "<span>" s1 = true -> endswith "</span>" s1 = true ->
  startswith "<span>" s2 = true -> endswith "</span>" s2 = true ->
  preview_rewrite s1 = preview_rewrite s2 ->
  s1 = s2.
Proof.
  intros Ho1 Hc1 Ho2 Hc2.
  destruct (wrapped_split s1 Ho1 Hc1) as [m1 ->].
  destruct (wrapped_split s2 Ho2 Hc2) as [m2 ->].
  rewrite !rewrite_wrapped. intros [= H].
  now destruct (app_inv_tail_length m1 m2 "</div>" "</div>" eq_refl H) as [-> _].
Qed.

Lemma X5_witness :
  startswith "<span>" "<span>a</span>" = true /\
  endswith "</span>" "<span>a</span>" = true /\
  preview_rewrite "<span>a</span>" = preview_rewrite "<span>a</span>" /\
  "<span>a</span>" = "<span>a</span>".
Proof.
  split; [reflexivity |]. split; [reflexivity |]. split; [reflexivity |].
  exact (X5_injective_on_wrapped_citations "<span>a</span>" "<span>a</span>"
           eq_refl eq_refl eq_refl eq_refl eq_refl).
Defined.

(** X6. The rewriter is local to the two ends of the text: for a text made
    of a head of at least 6 characters and a tail of at least 8, the output
    is the opening substitution of the head followed by the closing
    substitution of the tail. *)
Theorem X6_rewriter_is_local_to_the_ends (a b : string) :
  (6 <= String.length a)%nat ->
  (8 <= String.length b)%nat ->
  exists ra rb,
    preview_open a = Some ra /\ preview_close b = Some rb /\
    preview_rewrite (a +:+ b) = Some (ra +:+ rb).
Proof.
  intros Ha Hb. exists (open_spec a), (close_spec b).
  split; [apply preview_open_eq |]. split; [apply preview_close_eq |].
  rewrite preview_rewrite_spec. f_equal.
  rewrite (open_spec_app_long a b Ha). apply close_spec_app_long, Hb.
Qed.

Lemma X6_witness :
  (6 <= String.length "<span>Hassler")%nat /\
  (8 <= String.length ", 2020</span>")%nat /\
  preview_rewrite ("<span>Hassler" +:+ ", 2020</span>") =
  Some ((div_open +:+ "Hassler") +:+ ", 2020</div>").
Proof.
  split; [simpl; lia |]. split; [simpl; lia |].
  destruct (X6_rewriter_is_local_to_the_ends "<span>Hassler" ", 2020</span>")
    as (ra & rb & Ha & Hb & H); [simpl; lia | simpl; lia |].
  vm_compute in Ha, Hb. injection Ha as <-. injection Hb as <-. exact H.
Defined.

End RewriterExtras.

(** * Further properties of the configuration *)

Section ConfigExtras.

Context {X : Externals}.
Variable environ : gmap string string.

(** X7. The outcome of importing the module is a function of the
    environment: the import raises the error of the first required variable
    that is not set; when all are set, the validation error of the first of
    [ASSETS_DEBUG], [KERKO_ZOTERO_START] and [KERKO_ZOTERO_END] whose value
    does not parse; and it returns otherwise. *)
Theorem X7_outcome_of_the_import :
  exists st,
    run environ =
    match import_error environ with
    | Some e => Raised e st
    | None => Returned tt st
    end.
Proof.
  unfold_outcome.
  required_or_raises environ "FLASK_APP".
  required_or_raises environ "SECRET_KEY".
  required_or_raises environ "KERKO_ZOTERO_API_KEY".
  required_or_raises environ "KERKO_ZOTERO_LIBRARY_ID".
  required_or_raises environ "KERKO_ZOTERO_LIBRARY_TYPE".
  unfold_module. rewrite_resolved. cbv beta iota.
  rewrite !resolve_string, !resolve_typed. unfold first_invalid.
  destruct (unparseable environ parse_bool "ASSETS_DEBUG");
    cbv beta iota; [eexists; reflexivity |].
  destruct (unparseable environ parse_int "KERKO_ZOTERO_START");
    cbv beta iota; [eexists; reflexivity |].
  destruct (unparseable environ parse_int "KERKO_ZOTERO_END");
    cbv beta iota; eexists; reflexivity.
Qed.

(** X8. The module loads exactly when the five required variables are set
    and each of [ASSETS_DEBUG], [KERKO_ZOTERO_START] and [KERKO_ZOTERO_END]
    is unset or has a value that parses; what [KERKO_DATA_DIR] and
    [LOGGING_LEVEL] hold cannot make it fail. *)
Theorem X8_module_loads_iff_loadable :
  (exists st, run environ = Returned tt st) <-> loadable environ.
Proof.
  split.
  - intros [st H]. exact (run_returns_loadable environ st H).
  - apply loadable_run_returns.
Qed.

(** X9. A typed variable whose value does not parse aborts the import with
    a validation error, in the body of [DevelopmentConfig] and so whichever
    configuration is wanted: by then the class [Config] exists and the one
    composer holds its registrations, but neither subclass exists and
    [CONFIGS] is not bound. *)
Theorem X9_unparseable_variable_aborts_the_import (name : string) :
  first_missing environ = None ->
  first_invalid environ = Some name ->
  exists st,
    run environ = Raised (EnvValidationError name) st /\
    In name ["ASSETS_DEBUG"; "KERKO_ZOTERO_START"; "KERKO_ZOTERO_END"] /\
    is_Some (classes st !! "Config") /\
    classes st !! "DevelopmentConfig" = None /\
    classes st !! "ProductionConfig" = None /\
    CONFIGS st = None /\
    added_fields O st = ["data"; "preview"] /\
    added_facets O st = ["facet_proposal"; "facet_theme"; "facet_location"] /\
    exists c, heap st = [c] /\ fields c !! "preview" = Some preview_field.
Proof.
  unfold first_missing, required, is_unset. cbn [List.find].
  destruct (environ !! "FLASK_APP") eqn:E1; [| discriminate].
  destruct (environ !! "SECRET_KEY") eqn:E2; [| discriminate].
  destruct (environ !! "KERKO_ZOTERO_API_KEY") eqn:E3; [| discriminate].
  destruct (environ !! "KERKO_ZOTERO_LIBRARY_ID") eqn:E4; [| discriminate].
  destruct (environ !! "KERKO_ZOTERO_LIBRARY_TYPE") eqn:E5; [| discriminate].
  intros _ Hinv.
  repeat match goal with
         | H : environ !! ?n = Some ?v |- _ =>
             apply (fun E => resolve_set environ Some n None v v E eq_refl) in H
         end.
  assert (Hstate : forall st : state,
            is_Some (classes st !! "Config") ->
            classes st !! "DevelopmentConfig" = None ->
            classes st !! "ProductionConfig" = None ->
            CONFIGS st = None ->
            added_fields O st = ["data"; "preview"] ->
            added_facets O st = ["facet_proposal"; "facet_theme"; "facet_location"] ->
            (exists c, heap st = [c] /\ fields c !! "preview" = Some preview_field) ->
            run environ = Raised (EnvValidationError name) st ->
            In name ["ASSETS_DEBUG"; "KERKO_ZOTERO_START"; "KERKO_ZOTERO_END"] ->
            exists st,
              run environ = Raised (EnvValidationError name) st /\
              In name ["ASSETS_DEBUG"; "KERKO_ZOTERO_START"; "KERKO_ZOTERO_END"] /\
              is_Some (classes st !! "Config") /\
              classes st !! "DevelopmentConfig" = None /\
              classes st !! "ProductionConfig" = None /\
              CONFIGS st = None /\
              added_fields O st = ["data"; "preview"] /\
              added_facets O st = ["facet_proposal"; "facet_theme"; "facet_location"] /\
              exists c, heap st = [c] /\ fields c !! "preview" = Some preview_field).
  { intros st. exists st. tauto. }
  unfold first_invalid in Hinv.
  destruct (unparseable environ parse_bool "ASSETS_DEBUG") eqn:Ua;
    [| destruct (unparseable environ parse_int "KERKO_ZOTERO_START") eqn:Us;
       [| destruct (unparseable environ parse_int "KERKO_ZOTERO_END") eqn:Ue;
          [| discriminate Hinv]]];
    injection Hinv as <-;
    (eapply Hstate;
     [ .. | unfold_module; rewrite_resolved; cbv beta iota;
            rewrite !resolve_string, !resolve_typed;
            rewrite ?Ua, ?Us, ?Ue; cbv beta iota; reflexivity
          | simpl; tauto ]).
  all: try (cbn [classes]; rewrite ?lookup_insert_ne by done;
            first [ rewrite lookup_insert_eq; eexists; reflexivity
                  | apply lookup_empty ]).
  all: try reflexivity.
  all: eexists; split; [reflexivity |];
       cbv [fields Composer_add_facet Composer_add_field];
       cbn [field_key preview_field]; apply lookup_insert_eq.
Qed.

(** X10. When the module loads, the four required settings are exposed
    verbatim by the three classes, as the strings of the environment;
    [FLASK_APP] is exposed under no attribute of that name, but as
    [app_dir], the absolute parent directory of its path. *)
Theorem X10_required_values_are_exposed_verbatim :
  loadable environ ->
  exists st,
    run environ = Returned tt st /\
    Forall (fun cls =>
              Forall (fun name => getattr st cls name = VStr <$> environ !! name)
                ["SECRET_KEY"; "KERKO_ZOTERO_API_KEY"; "KERKO_ZOTERO_LIBRARY_ID";
                 "KERKO_ZOTERO_LIBRARY_TYPE"] /\
              getattr st cls "app_dir" =
                (fun flask => VPath (absolute (parent (Path flask)))) <$>
                  environ !! "FLASK_APP" /\
              getattr st cls "FLASK_APP" = None)
           ["Config"; "DevelopmentConfig"; "ProductionConfig"].
Proof.
  intros Hload. module_loaded environ Hload.
  exists st. split; [exact Hrun |].
  apply resolve_required in Hflask, Hsecret, Hapi, Hlib_id, Hlib_type.
  do 3 (constructor;
        [cbv beta; split;
         [do 4 (constructor;
                [cbv beta; rewrite ?Hsecret, ?Hapi, ?Hlib_id, ?Hlib_type;
                 vm_compute; reflexivity |]);
          constructor |];
         rewrite Hflask; split; vm_compute; reflexivity |]).
  constructor.
Qed.

(** X11. When the module loads, [ASSETS_DEBUG] and [LOGGING_LEVEL] are each
    read for both subclasses: a value that is set is the value of both, and
    only the defaults differ. *)
Theorem X11_one_variable_for_both_subclasses :
  loadable environ ->
  exists st,
    run environ = Returned tt st /\
    (is_Some (environ !! "ASSETS_DEBUG") ->
     getattr st "DevelopmentConfig" "ASSETS_DEBUG" =
     getattr st "ProductionConfig" "ASSETS_DEBUG") /\
    (environ !! "ASSETS_DEBUG" = None ->
     getattr st "DevelopmentConfig" "ASSETS_DEBUG" = Some (VBool true) /\
     getattr st "ProductionConfig" "ASSETS_DEBUG" = Some (VBool false)) /\
    (forall level, environ !! "LOGGING_LEVEL" = Some level ->
     getattr st "DevelopmentConfig" "LOGGING_LEVEL" = Some (VStr level) /\
     getattr st "ProductionConfig" "LOGGING_LEVEL" = Some (VStr level)) /\
    (environ !! "LOGGING_LEVEL" = None ->
     getattr st "DevelopmentConfig" "LOGGING_LEVEL" = Some (VStr "DEBUG") /\
     getattr st "ProductionConfig" "LOGGING_LEVEL" = Some (VStr "WARNING")).
Proof.
  intros Hload. module_loaded environ Hload.
  exists st. split; [exact Hrun |].
  apply resolve_value in Hdev_assets, Hprod_assets, Hdev_level, Hprod_level.
  unfold env_value in *.
  assert (Hda : getattr st "DevelopmentConfig" "ASSETS_DEBUG" = Some (VBool dev_assets))
    by (vm_compute; reflexivity).
  assert (Hpa : getattr st "ProductionConfig" "ASSETS_DEBUG" = Some (VBool prod_assets))
    by (vm_compute; reflexivity).
  assert (Hdl : getattr st "DevelopmentConfig" "LOGGING_LEVEL" = Some (VStr dev_level))
    by (vm_compute; reflexivity).
  assert (Hpl : getattr st "ProductionConfig" "LOGGING_LEVEL" = Some (VStr prod_level))
    by (vm_compute; reflexivity).
  rewrite Hda, Hpa, Hdl, Hpl. clear Hda Hpa Hdl Hpl Hrun. clearbody st.
  destruct (environ !! "ASSETS_DEBUG") as [raw|];
    destruct (environ !! "LOGGING_LEVEL") as [level|].
  all: split; [intros [? ?]; congruence |].
  all: split; [intros ?; split; congruence |].
  all: split; [intros ? ?; split; congruence |].
  all: intros ?; split; congruence.
Qed.

(** X12. When the module loads, [CONFIGS] has the two keys [development]
    and [production] and no other, and the class found under a key has
    that key as its [CONFIG] attribute. *)
Theorem X12_CONFIGS_selects_by_name :
  loadable environ ->
  exists st configs,
    run environ = Returned tt st /\
    CONFIGS st = Some configs /\
    forall name,
      match configs !! name with
      | Some cls =>
          (name = "development" \/ name = "production") /\
          is_Some (classes st !! cls) /\
          getattr st cls "CONFIG" = Some (VStr name)
      | None => name <> "development" /\ name <> "production"
      end.
Proof.
  intros Hload. module_loaded environ Hload.
  exists st, CONFIGS_dict. split; [exact Hrun |]. split; [reflexivity |].
  intros name. unfold CONFIGS_dict.
  destruct (decide (name = "development")) as [-> | Hd].
  { rewrite lookup_insert_eq.
    split; [now left |]. split; vm_compute; eauto. }
  rewrite lookup_insert_ne by congruence.
  destruct (decide (name = "production")) as [-> | Hp].
  { rewrite lookup_insert_eq.
    split; [now right |]. split; vm_compute; eauto. }
  rewrite lookup_insert_ne by congruence.
  rewrite lookup_empty. now split.
Qed.

(** X13. When the module loads, it has created one composer, with the
    arguments of the call, and its registrations have changed the
    registries of that composer under the five keys they use only: every
    other key designates what the constructor installed under it. *)
Theorem X13_registrations_keep_the_default_registry :
  loadable environ ->
  exists st c,
    run environ = Returned tt st /\
    heap st = [c] /\
    whoosh_language c = "en" /\
    exclude_default_facets c = ["facet_tag"; "facet_link"; "facet_item_type"] /\
    exclude_default_fields c = ["data"] /\
    default_child_include_re c = "^(_publish|publishPDF)$" /\
    default_child_exclude_re c = EmptyString /\
    (forall key, ~ In key ["data"; "preview"] ->
       fields c !! key = default_fields (exclude_default_fields c) !! key) /\
    (forall key, ~ In key ["facet_proposal"; "facet_theme"; "facet_location"] ->
       facets c !! key = default_facets (exclude_default_facets c) !! key).
Proof.
  intros Hload. module_loaded environ Hload.
  eexists st, _. split; [exact Hrun |]. split; [reflexivity |].
  do 5 (split; [reflexivity |]).
  cbv [fields facets Composer_add_facet Composer_add_field
       exclude_default_fields exclude_default_facets].
  cbn [field_key facet_key data_field preview_field proposal_facet theme_facet
       location_facet].
  split; intros key Hout; simpl in Hout;
    rewrite !lookup_insert_ne by (intros <-; apply Hout; tauto); reflexivity.
Qed.

End ConfigExtras.

Section Independence.

Context {X : Externals}.
Variables environ environ' : gmap string string.

(** X14. The environment reaches the configuration through the ten
    attributes of [environment_names] only: under two environments in which
    the module loads, the composers are the same, [CONFIGS] is the same, and
    the three classes agree on every other attribute. *)
Theorem X14_settings_outside_the_environment_are_fixed :
  loadable environ ->
  loadable environ' ->
  exists st st',
    run environ = Returned tt st /\
    run environ' = Returned tt st' /\
    heap st = heap st' /\
    CONFIGS st = CONFIGS st' /\
    forall cls attr,
      In cls ["Config"; "DevelopmentConfig"; "ProductionConfig"] ->
      ~ In attr environment_names ->
      getattr st cls attr = getattr st' cls attr.
Proof.
  intros Hload Hload'.
  module_loaded environ Hload.
  rename flask into flask1, secret into secret1, api into api1,
    lib_id into lib_id1, lib_type into lib_type1, data_dir into data_dir1,
    dev_assets into dev_assets1, zstart into zstart1, zend into zend1,
    dev_level into dev_level1, prod_assets into prod_assets1,
    prod_level into prod_level1, st into st1.
  clear Hflask Hsecret Hapi Hlib_id Hlib_type Hdata_dir Hdev_assets Hzstart
    Hzend Hdev_level Hprod_assets Hprod_level.
  match goal with H : run environ = _ |- _ => rename H into Hrun1 end.
  module_loaded environ' Hload'.
  exists st1, st. split; [exact Hrun1 |]. split; [assumption |].
  split; [reflexivity |]. split; [reflexivity |].
  intros cls attr Hcls Hout. unfold environment_names in Hout.
  assert (Hbase : forall d,
            getattr_from (S d) (classes st1) "Config" attr =
            getattr_from (S d) (classes st) "Config" attr).
  { intros d.
    erewrite (getattr_from_root d (classes st1) "Config");
      [| cbn [classes st1]; rewrite !lookup_insert_ne by done; apply lookup_insert_eq
       | reflexivity].
    erewrite (getattr_from_root d (classes st) "Config");
      [| cbn [classes st]; rewrite !lookup_insert_ne by done; apply lookup_insert_eq
       | reflexivity].
    cbn [cls_dict]. same_lookup Hout. }
  unfold getattr.
  replace (size (classes st1)) with 3%nat by (vm_compute; reflexivity).
  replace (size (classes st)) with 3%nat by (vm_compute; reflexivity).
  simpl in Hcls. destruct Hcls as [<- | [<- | [<- | []]]].
  - apply Hbase.
  - erewrite (getattr_from_sub 2 (classes st1) "DevelopmentConfig");
      [| cbn [classes st1]; rewrite lookup_insert_ne by done; apply lookup_insert_eq
       | reflexivity].
    erewrite (getattr_from_sub 2 (classes st) "DevelopmentConfig");
      [| cbn [classes st]; rewrite lookup_insert_ne by done; apply lookup_insert_eq
       | reflexivity].
    rewrite Hbase. cbn [cls_dict].
    match goal with
    | |- match ?a with _ => _ end = match ?b with _ => _ end =>
        replace a with b; [reflexivity | symmetry; same_lookup Hout]
    end.
  - erewrite (getattr_from_sub 2 (classes st1) "ProductionConfig");
      [| cbn [classes st1]; apply lookup_insert_eq | reflexivity].
    erewrite (getattr_from_sub 2 (classes st) "ProductionConfig");
      [| cbn [classes st]; apply lookup_insert_eq | reflexivity].
    rewrite Hbase. cbn [cls_dict].
    match goal with
    | |- match ?a with _ => _ end = match ?b with _ => _ end =>
        replace a with b; [reflexivity | symmetry; same_lookup Hout]
    end.
Qed.

End Independence.

Section OnlyTenVariables.

Context {X : Externals}.
Variables environ environ' : gmap string string.

(** X15. The import depends on the environment through the ten variables
    only: two environments that agree on them give the same outcome, with
    the same final state. *)
Theorem X15_only_the_ten_variables_are_read :
  Forall (fun name => environ !! name = environ' !! name) (map fst var_types) ->
  run environ = run environ'.
Proof.
  intros H. unfold var_types in H. cbn [map fst] in H.
  repeat match goal with
         | H : Forall _ (_ :: _) |- _ =>
             let E := fresh "E" in apply Forall_cons in H as [E H]
         end.
  clear H.
  unfold_module.
  repeat match goal with
         | E : environ !! ?n = environ' !! ?n
           |- context [resolve environ ?p ?n ?d] =>
             rewrite (resolve_ext environ environ' p n d E)
         end.
  destruct (resolve environ' Some "FLASK_APP" None); [reflexivity |].
  cbv beta iota.
  repeat match goal with
         | E : environ !! ?n = environ' !! ?n
           |- context [resolve environ ?p ?n ?d] =>
             rewrite (resolve_ext environ environ' p n d E)
         end.
  reflexivity.
Qed.

End OnlyTenVariables.

(** ** The further properties on the sample environments *)

Lemma X8_witness :
  (exists st, run (X := sample) minimal_environ = Returned tt st) /\
  loadable (X := sample) minimal_environ.
Proof.
  pose proof (proj2 (X8_module_loads_iff_loadable minimal_environ)
                minimal_environ_loadable) as Hrun.
  split; [exact Hrun |].
  exact (proj1 (X8_module_loads_iff_loadable minimal_environ) Hrun).
Defined.

Lemma X9_witness :
  first_missing invalid_environ = None /\
  first_invalid (X := sample) invalid_environ = Some "KERKO_ZOTERO_START" /\
  exists st,
    run (X := sample) invalid_environ =
      Raised (EnvValidationError "KERKO_ZOTERO_START") st /\
    is_Some (classes st !! "Config") /\
    classes st !! "ProductionConfig" = None /\
    CONFIGS st = None.
Proof.
  assert (Hm : first_missing invalid_environ = None) by (vm_compute; reflexivity).
  assert (Hi : first_invalid (X := sample) invalid_environ = Some "KERKO_ZOTERO_START")
    by (vm_compute; reflexivity).
  split; [exact Hm |]. split; [exact Hi |].
  destruct (X9_unparseable_variable_aborts_the_import
              invalid_environ "KERKO_ZOTERO_START" Hm Hi)
    as (st & Hrun & _ & Hc & _ & Hp & Hn & _).
  exists st. repeat split; assumption.
Defined.

Lemma X10_witness :
  loadable (X := sample) minimal_environ /\
  exists st,
    run (X := sample) minimal_environ = Returned tt st /\
    getattr st "ProductionConfig" "SECRET_KEY" = Some (VStr "s3cret") /\
    getattr st "Config" "app_dir" = Some (VPath (X := sample) "/srv/wsgi.py/..").
Proof.
  split; [exact minimal_environ_loadable |].
  destruct (X10_required_values_are_exposed_verbatim minimal_environ
              minimal_environ_loadable) as (st & Hrun & H).
  exists st. split; [exact Hrun |].
  apply Forall_cons in H as [(_ & Hdir & _) H].
  apply Forall_cons in H as [_ H].
  apply Forall_cons in H as [(Hkeys & _) _].
  apply Forall_cons in Hkeys as [Hkey _].
  split; [exact Hkey | exact Hdir].
Defined.

Lemma X11_witness :
  loadable (X := sample) full_environ /\
  exists st,
    run (X := sample) full_environ = Returned tt st /\
    getattr st "DevelopmentConfig" "ASSETS_DEBUG" =
      getattr st "ProductionConfig" "ASSETS_DEBUG" /\
    getattr st "ProductionConfig" "LOGGING_LEVEL" = Some (VStr "INFO").
Proof.
  split; [exact full_environ_loadable |].
  destruct (X11_one_variable_for_both_subclasses full_environ full_environ_loadable)
    as (st & Hrun & Hset & _ & Hlevel & _).
  exists st. split; [exact Hrun |].
  split; [apply Hset; vm_compute; eexists; reflexivity |].
  exact (proj2 (Hlevel "INFO" eq_refl)).
Defined.

Lemma X12_witness :
  loadable (X := sample) minimal_environ /\
  exists st configs,
    run (X := sample) minimal_environ = Returned tt st /\
    CONFIGS st = Some configs /\
    is_Some (configs !! "production") /\
    configs !! "testing" = None.
Proof.
  split; [exact minimal_environ_loadable |].
  destruct (X12_CONFIGS_selects_by_name minimal_environ minimal_environ_loadable)
    as (st & configs & Hrun & Hconfigs & H).
  exists st, configs. split; [exact Hrun |]. split; [exact Hconfigs |].
  split.
  - specialize (H "production"). destruct (configs !! "production").
    + eexists; reflexivity.
    + destruct H as [_ H]. now destruct H.
  - specialize (H "testing"). destruct (configs !! "testing"); [| reflexivity].
    destruct H as [[H | H] _]; discriminate H.
Defined.

Lemma X13_witness :
  loadable (X := sample) minimal_environ /\
  exists st c,
    run (X := sample) minimal_environ = Returned tt st /\
    heap st = [c] /\
    fields c !! "bib" = None.
Proof.
  split; [exact minimal_environ_loadable |].
  destruct (X13_registrations_keep_the_default_registry minimal_environ
              minimal_environ_loadable)
    as (st & c & Hrun & Hheap & _ & _ & _ & _ & _ & Hfields & _).
  exists st, c. split; [exact Hrun |]. split; [exact Hheap |].
  rewrite Hfields; [reflexivity |].
  simpl. intros [H | [H | []]]; discriminate H.
Defined.

Lemma X14_witness :
  loadable (X := sample) minimal_environ /\
  loadable (X := sample) full_environ /\
  exists st st',
    run (X := sample) minimal_environ = Returned tt st /\
    run (X := sample) full_environ = Returned tt st' /\
    heap st = heap st' /\
    getattr st "ProductionConfig" "KERKO_CSL_STYLE" =
      getattr st' "ProductionConfig" "KERKO_CSL_STYLE".
Proof.
  split; [exact minimal_environ_loadable |].
  split; [exact full_environ_loadable |].
  destruct (X14_settings_outside_the_environment_are_fixed
              minimal_environ full_environ
              minimal_environ_loadable full_environ_loadable)
    as (st & st' & Hrun & Hrun' & Hheap & _ & H).
  exists st, st'. split; [exact Hrun |]. split; [exact Hrun' |].
  split; [exact Hheap |].
  apply H; [simpl; tauto |].
  unfold environment_names. simpl. intros Hin.
  repeat (destruct Hin as [Hin | Hin]; [discriminate Hin |]). exact Hin.
Defined.

Lemma X15_witness :
  Forall (fun name => minimal_environ !! name =
                      <["HOME" := "/root"]> minimal_environ !! name)
         (map fst var_types) /\
  run (X := sample) minimal_environ =
  run (X := sample) (<["HOME" := "/root"]> minimal_environ).
Proof.
  assert (H : Forall (fun name => minimal_environ !! name =
                                  <["HOME" := "/root"]> minimal_environ !! name)
                     (map fst var_types)).
  { unfold var_types. cbn [map fst]. repeat constructor. }
  split; [exact H |].
  exact (X15_only_the_ten_variables_are_read (X := sample) _ _ H).
Defined.
